(** * raycast-api-weather: the temperature commands, embedded and verified

    The extension has three command files.  Two of them implement the
    "today's temperature" report for the IP-derived location:

    - the variant with the stale-cache fallback and the widened chart axis
      (module [Cached] below; the file is [src/unnamed/part_000]);
    - the plain variant built on [useFetch] ([src/temperature.tsx],
      module [Plain]).

    The third ([src/unnamed/part_001], module [Tokyo]) shows the current
    conditions for a fixed city.

    JavaScript values are embedded as an inductive type, the built-ins the
    commands call ([Math.min], [JSON.stringify], [encodeURIComponent],
    [toLocaleDateString], ...) as functions following ECMAScript, and what
    only the host can decide (the decimal text of a number, the time-zone
    database) is collected in the class [Host].  React state and
    [LocalStorage] are passed explicitly. *)

From Stdlib Require Import ZArith QArith Qround Ascii String Bool Lia.
From stdpp Require Import gmap strings list pretty.

Open Scope Z_scope.

(* ================================================================== *)
(** * JavaScript numbers and the [Math] built-ins *)
(* ================================================================== *)

(** A JavaScript number: a finite value (every finite double is a
    rational, written here as a fraction), the two infinities, or NaN.
    Signed zeros are identified and rounding of arithmetic results is not
    modelled; the commands only compare, round to integers and add the
    literal 2.  A sum is stored in lowest terms. *)
Inductive number : Type :=
| NaN
| NegInf
| Fin (q : Q)
| PosInf.

Definition Qltb (a b : Q) : bool := negb (Qle_bool b a).

(** [a < b] on numbers: false as soon as one side is NaN. *)
Definition num_lt (a b : number) : bool :=
  match a, b with
  | NaN, _ | _, NaN => false
  | NegInf, NegInf => false
  | NegInf, _ => true
  | _, NegInf => false
  | PosInf, _ => false
  | Fin _, PosInf => true
  | Fin x, Fin y => Qltb x y
  end.

(** [a > b] is [b < a]. *)
Definition num_gt (a b : number) : bool := num_lt b a.

Definition num_add (a b : number) : number :=
  match a, b with
  | NaN, _ | _, NaN => NaN
  | PosInf, NegInf | NegInf, PosInf => NaN
  | PosInf, _ | _, PosInf => PosInf
  | NegInf, _ | _, NegInf => NegInf
  | Fin x, Fin y => Fin (Qred (x + y))
  end.

Definition num_of_Z (z : Z) : number := Fin (inject_Z z).

Definition Math_floor (a : number) : number :=
  match a with
  | Fin q => num_of_Z (Qfloor q)
  | other => other
  end.

Definition Math_ceil (a : number) : number :=
  match a with
  | Fin q => num_of_Z (Qceiling q)
  | other => other
  end.

(** [Math.min(...xs)]: starts from +Infinity, answers NaN as soon as an
    argument is NaN, otherwise keeps the smallest argument seen. *)
Fixpoint Math_min_from (lowest : number) (xs : list number) : number :=
  match xs with
  | [] => lowest
  | NaN :: _ => NaN
  | x :: rest => Math_min_from (if num_lt x lowest then x else lowest) rest
  end.

Definition Math_min (xs : list number) : number := Math_min_from PosInf xs.

(** [Math.max(...xs)]: the mirror image, starting from -Infinity. *)
Fixpoint Math_max_from (highest : number) (xs : list number) : number :=
  match xs with
  | [] => highest
  | NaN :: _ => NaN
  | x :: rest => Math_max_from (if num_gt x highest then x else highest) rest
  end.

Definition Math_max (xs : list number) : number := Math_max_from NegInf xs.

(** The two axis bounds of the cached variant, as computed from
    [data.hourly.temperature_2m]. *)
Definition minTemp (temperature_2m : list number) : number := Math_min temperature_2m.
Definition maxTemp (temperature_2m : list number) : number := Math_max temperature_2m.

Definition yAxisMin (temperature_2m : list number) : number :=
  if num_lt (minTemp temperature_2m) (num_of_Z 0)
  then Math_floor (minTemp temperature_2m)
  else num_of_Z 0.

Definition yAxisMax (temperature_2m : list number) : number :=
  if num_gt (maxTemp temperature_2m) (num_of_Z 40)
  then num_add (Math_ceil (maxTemp temperature_2m)) (num_of_Z 2)
  else num_of_Z 40.

(* ================================================================== *)
(** * JavaScript values and the [JSON] built-ins *)
(* ================================================================== *)

(** The values the commands handle: what [JSON.parse] can build, with
    numbers as above.  An object is its list of own properties in creation
    order (integer-like names, which JavaScript enumerates first, do not
    occur in the interfaces of this extension). *)
Unset Elimination Schemes.
Inductive value : Type :=
| VNull
| VBool (b : bool)
| VNum (n : number)
| VStr (s : string)
| VArr (items : list value)
| VObj (props : list (string * value)).

(** A JSON text, by its syntax tree.  A number literal denotes a finite
    value; an object literal may repeat a member name. *)
Inductive json : Type :=
| JNull
| JBool (b : bool)
| JNumber (q : Q)
| JString (s : string)
| JArray (elements : list json)
| JObject (members : list (string * json)).
Set Elimination Schemes.

(** [obj.key] on an object: the property's value, or [None] for
    [undefined]. *)
Fixpoint get_prop (key : string) (props : list (string * value)) : option value :=
  match props with
  | [] => None
  | (k, v) :: rest => if String.eqb k key then Some v else get_prop key rest
  end.

(** Defining a property: an existing one keeps its position and takes the
    new value, a new one goes last. *)
Fixpoint set_prop (key : string) (v : value) (props : list (string * value))
  : list (string * value) :=
  match props with
  | [] => [(key, v)]
  | (k, old) :: rest =>
      if String.eqb k key then (k, v) :: rest else (k, old) :: set_prop key v rest
  end.

Definition define_props (members : list (string * value)) : list (string * value) :=
  fold_left (fun acc kv => set_prop (fst kv) (snd kv) acc) members [].

(** [JSON.parse] on a well-formed text (a text that is not JSON never gets
    this far: decoding it raises a SyntaxError, see [FetchOutcome]). *)
Fixpoint JSON_parse (t : json) : value :=
  match t with
  | JNull => VNull
  | JBool b => VBool b
  | JNumber q => VNum (Fin q)
  | JString s => VStr s
  | JArray elements => VArr (map JSON_parse elements)
  | JObject members =>
      VObj (define_props (map (fun m => (fst m, JSON_parse (snd m))) members))
  end.

(** [JSON.stringify] on such a value: NaN and the infinities are written
    as [null], everything else structurally. *)
Fixpoint JSON_stringify (v : value) : json :=
  match v with
  | VNull => JNull
  | VBool b => JBool b
  | VNum (Fin q) => JNumber q
  | VNum _ => JNull
  | VStr s => JString s
  | VArr items => JArray (map JSON_stringify items)
  | VObj props => JObject (map (fun p => (fst p, JSON_stringify (snd p))) props)
  end.

(** [v.key] for a value [v] that is not null: primitives and arrays have
    no property of the names used here. *)
Definition prop (key : string) (v : value) : option value :=
  match v with
  | VObj props => get_prop key props
  | _ => None
  end.

(** ToBoolean. *)
Definition truthy (v : value) : bool :=
  match v with
  | VNull => false
  | VBool b => b
  | VNum NaN => false
  | VNum (Fin q) => negb (Qeq_bool q 0)
  | VNum _ => true
  | VStr s => negb (String.eqb s EmptyString)
  | VArr _ | VObj _ => true
  end.

Definition truthy_opt (o : option value) : bool :=
  match o with
  | Some v => truthy v
  | None => false
  end.

(** Values that survive a trip through JSON text: no NaN or infinity, no
    object with a repeated property name. *)
Fixpoint json_safe (v : value) : bool :=
  match v with
  | VNum (Fin _) => true
  | VNum _ => false
  | VArr items => forallb json_safe items
  | VObj props =>
      forallb (fun p => json_safe (snd p)) props
      && bool_decide (NoDup (map fst props))
  | _ => true
  end.

(* ================================================================== *)
(** * Exceptions and what the host provides *)
(* ================================================================== *)

(** A thrown [Error], by its message. *)
Inductive Error : Type := MkError (message : string).

(** The outcome of evaluating an expression: a value, or a throw.
    [Untyped] marks an evaluation that left the declared TypeScript
    interfaces (a decoded body whose fields have other types than the
    interface says); what JavaScript does from there on is not modelled. *)
Inductive completion (A : Type) : Type :=
| Normal (a : A)
| Throw (e : Error)
| Untyped.
Arguments Normal {A} a.
Arguments Throw {A} e.
Arguments Untyped {A}.

#[export] Instance completion_ret : MRet completion := fun A a => Normal a.

#[export] Instance completion_bind : MBind completion := fun A B k c =>
  match c with
  | Normal a => k a
  | Throw e => Throw e
  | Untyped => Untyped
  end.

(** What only the runtime can decide.  [Number_toString] is the decimal
    text of a number.  [zoneOffset tz t] is the offset from UTC, in
    minutes, that the time-zone database gives zone [tz] at the instant [t]
    (milliseconds since the epoch); [None] when [tz] names no zone, in
    which case [Intl] raises a RangeError. *)
Class Host : Type := {
  Number_toString : number -> string;
  zoneOffset : string -> Z -> option Z
}.

(* ================================================================== *)
(** * Text built-ins: [encodeURIComponent] and the text of a JSON value *)
(* ================================================================== *)

(** Strings are kept as their UTF-8 bytes. *)
Definition hex_digit (d : N) : ascii :=
  ascii_of_N (if (d <? 10)%N then 48 + d else 55 + d).

Definition percent_byte (c : ascii) : string :=
  let n := N_of_ascii c in
  String "%"%char (String (hex_digit (n / 16)) (String (hex_digit (n mod 16)) EmptyString)).

(** Letters, digits and [- _ . ! ~ * ' ( )] stand for themselves. *)
Definition unreserved (c : ascii) : bool :=
  let n := N_of_ascii c in
  ((65 <=? n) && (n <=? 90) || (97 <=? n) && (n <=? 122) || (48 <=? n) && (n <=? 57)
   || bool_decide (n ∈ [45; 95; 46; 33; 126; 42; 39; 40; 41]))%N.

Fixpoint encodeURIComponent (s : string) : string :=
  match s with
  | EmptyString => EmptyString
  | String c rest =>
      (if unreserved c then String c EmptyString else percent_byte c)
      +:+ encodeURIComponent rest
  end.

Definition backslash : ascii := ascii_of_N 92.
Definition dquote : ascii := ascii_of_N 34.

(** One character of a string literal in JSON text. *)
Definition escape_char (c : ascii) : string :=
  let n := N_of_ascii c in
  let esc (x : ascii) := String backslash (String x EmptyString) in
  if (n =? 34)%N then esc dquote
  else if (n =? 92)%N then esc backslash
  else if (n =? 8)%N then esc "b"%char
  else if (n =? 12)%N then esc "f"%char
  else if (n =? 10)%N then esc "n"%char
  else if (n =? 13)%N then esc "r"%char
  else if (n =? 9)%N then esc "t"%char
  else if (n <? 32)%N
       then String backslash
              ("u00" +:+ String (ascii_of_N (if (n <? 16)%N then 48 else 49))
                           (String (ascii_of_N
                                      (let d := (n mod 16)%N in
                                       if (d <? 10)%N then 48 + d else 87 + d)%N)
                                   EmptyString))
       else String c EmptyString.

Fixpoint escape (s : string) : string :=
  match s with
  | EmptyString => EmptyString
  | String c rest => escape_char c +:+ escape rest
  end.

Definition quoted (s : string) : string :=
  String dquote (escape s +:+ String dquote EmptyString).

(** The string [JSON.stringify] returns for a syntax tree: no white space,
    numbers as [Number_toString] prints them. *)
Fixpoint json_text `{Host} (t : json) : string :=
  match t with
  | JNull => "null"
  | JBool true => "true"
  | JBool false => "false"
  | JNumber q => Number_toString (Fin q)
  | JString s => quoted s
  | JArray elements => "[" +:+ String.concat "," (map json_text elements) +:+ "]"
  | JObject members =>
      "{" +:+ String.concat ","
                (map (fun m => quoted (fst m) +:+ ":" +:+ json_text (snd m)) members)
      +:+ "}"
  end.

(* ================================================================== *)
(** * Calendar fields and the three [toLocale...String] calls *)
(* ================================================================== *)

Record LocalFields : Type := {
  year : Z;
  month : Z;
  day : Z;
  hour : Z;
  minute : Z
}.

(** Days since 1970-01-01 to a proleptic Gregorian date. *)
Definition civil_from_days (days : Z) : Z * Z * Z :=
  let z := days + 719468 in
  let era := z / 146097 in
  let doe := z - era * 146097 in
  let yoe := (doe - doe / 1460 + doe / 36524 - doe / 146096) / 365 in
  let doy := doe - (365 * yoe + yoe / 4 - yoe / 100) in
  let mp := (5 * doy + 2) / 153 in
  let d := doy - (153 * mp + 2) / 5 + 1 in
  let m := if mp <? 10 then mp + 3 else mp - 9 in
  let y := yoe + era * 400 + (if m <=? 2 then 1 else 0) in
  (y, m, d).

(** The wall-clock fields shown at instant [now] in a zone [offset] minutes
    ahead of UTC. *)
Definition local_fields (offset now : Z) : LocalFields :=
  let ms := now + offset * 60000 in
  let ms_of_day := ms mod 86400000 in
  let '(y, m, d) := civil_from_days (ms / 86400000) in
  {| year := y; month := m; day := d;
     hour := ms_of_day / 3600000;
     minute := (ms_of_day / 60000) mod 60 |}.

Definition zoned_fields `{Host} (timeZone : string) (now : Z) : completion LocalFields :=
  match zoneOffset timeZone now with
  | Some offset => Normal (local_fields offset now)
  | None => Throw (MkError ("Invalid time zone specified: " +:+ timeZone))
  end.

Definition digit (d : Z) : ascii := ascii_of_nat (48 + Z.to_nat d).

(** The "2-digit" style. *)
Definition two_digit (n : Z) : string :=
  String (digit (n / 10)) (String (digit (n mod 10)) EmptyString).

Definition month_name (m : Z) : string :=
  match m with
  | 1 => "January" | 2 => "February" | 3 => "March" | 4 => "April"
  | 5 => "May" | 6 => "June" | 7 => "July" | 8 => "August"
  | 9 => "September" | 10 => "October" | 11 => "November"
  | _ => "December"
  end.

(** [en-CA], year numeric, month and day 2-digit: [YYYY-MM-DD]. *)
Definition format_en_CA (f : LocalFields) : string :=
  pretty (year f) +:+ "-" +:+ two_digit (month f) +:+ "-" +:+ two_digit (day f).

(** [en-GB], hour and minute 2-digit, 24-hour clock: [HH:mm]. *)
Definition format_en_GB (f : LocalFields) : string :=
  two_digit (hour f) +:+ ":" +:+ two_digit (minute f).

(** [en-US], year numeric, month long, day numeric: [October 30, 2025]. *)
Definition format_en_US (f : LocalFields) : string :=
  month_name (month f) +:+ " " +:+ pretty (day f) +:+ ", " +:+ pretty (year f).

(** The window of a report, computed at every render from the clock. *)
Definition dateString `{Host} (timezoneId : string) (now : Z) : completion string :=
  f ← zoned_fields timezoneId now; mret (format_en_CA f).

Definition timeString `{Host} (timezoneId : string) (now : Z) : completion string :=
  f ← zoned_fields timezoneId now; mret (format_en_GB f).

Definition formattedDate `{Host} (timezoneId : string) (now : Z) : completion string :=
  f ← zoned_fields timezoneId now; mret (format_en_US f).

Record Window : Type := {
  startTime : string;
  endTime : string
}.

Definition computeWindow `{Host} (timezoneId : string) (now : Z) : completion Window :=
  date ← dateString timezoneId now;
  time ← timeString timezoneId now;
  mret {| startTime := date +:+ "T05:00"; endTime := date +:+ "T" +:+ time |}.

(* ================================================================== *)
(** * The declared interfaces, read off a decoded value *)
(* ================================================================== *)

Definition as_number (v : value) : option number :=
  match v with VNum n => Some n | _ => None end.

Definition as_string (v : value) : option string :=
  match v with VStr s => Some s | _ => None end.

Definition as_boolean (v : value) : option bool :=
  match v with VBool b => Some b | _ => None end.

Definition as_array {A : Type} (elem : value -> option A) (v : value) : option (list A) :=
  match v with VArr items => mapM elem items | _ => None end.

(** [interface WeatherResponse] of the two temperature commands. *)
Module WeatherResponse.
Record Hourly : Type := {
  time : list string;
  temperature_2m : list number
}.
Record HourlyUnits : Type := {
  units_time : string;
  units_temperature_2m : string
}.
Record t : Type := {
  latitude : number;
  longitude : number;
  timezone : string;
  hourly : Hourly;
  hourly_units : HourlyUnits
}.

Definition decode_hourly (v : value) : option Hourly :=
  tm ← prop "time" v ≫= as_array as_string;
  temps ← prop "temperature_2m" v ≫= as_array as_number;
  Some {| time := tm; temperature_2m := temps |}.

Definition decode_units (v : value) : option HourlyUnits :=
  tm ← prop "time" v ≫= as_string;
  temps ← prop "temperature_2m" v ≫= as_string;
  Some {| units_time := tm; units_temperature_2m := temps |}.

(** The value seen through the interface, when it fits. *)
Definition decode (v : value) : option t :=
  lat ← prop "latitude" v ≫= as_number;
  lon ← prop "longitude" v ≫= as_number;
  tz ← prop "timezone" v ≫= as_string;
  h ← prop "hourly" v ≫= decode_hourly;
  u ← prop "hourly_units" v ≫= decode_units;
  Some {| latitude := lat; longitude := lon; timezone := tz;
          hourly := h; hourly_units := u |}.
End WeatherResponse.

(** [interface LocationResponse]. *)
Module LocationResponse.
Record t : Type := {
  success : bool;
  latitude : number;
  longitude : number;
  city : string;
  country : string;
  timezone_id : string
}.

Definition decode (v : value) : option t :=
  ok ← prop "success" v ≫= as_boolean;
  lat ← prop "latitude" v ≫= as_number;
  lon ← prop "longitude" v ≫= as_number;
  ci ← prop "city" v ≫= as_string;
  co ← prop "country" v ≫= as_string;
  zone ← prop "timezone" v;
  tz ← prop "id" zone ≫= as_string;
  Some {| success := ok; latitude := lat; longitude := lon;
          city := ci; country := co; timezone_id := tz |}.
End LocationResponse.

(** The props of [WeatherDisplay]. *)
Module Props.
Record t : Type := {
  latitude : number;
  longitude : number;
  city : string;
  country : string;
  timezoneId : string
}.
End Props.

(* ================================================================== *)
(** * What a command renders *)
(* ================================================================== *)

Inductive Action : Type :=
| OpenInBrowser (title url : string)
| CopyToClipboard (title content : string).

(** A [<Detail>] element with the attributes the commands set. *)
Module Detail.
Record t : Type := {
  isLoading : bool;
  markdown : option string;
  actions : list Action
}.
End Detail.

(** [<Detail isLoading={true} />] *)
Definition loadingDetail : Detail.t :=
  {| Detail.isLoading := true; Detail.markdown := None; Detail.actions := [] |}.

(** What [useFetch] hands to a component at a render. *)
Module UseFetch.
Record t : Type := {
  data : option value;
  isLoading : bool;
  error : option Error
}.
End UseFetch.

(** What [fetch(url)] settles to: a rejection (network failure), or a
    response whose body either decodes as JSON or makes [response.json()]
    reject. *)
Module Response.
Record t : Type := {
  ok : bool;
  status : Z;
  statusText : string;
  body : option json
}.
End Response.

Inductive FetchOutcome : Type :=
| Rejected (e : Error)
| Responded (r : Response.t).

Definition Network : Type := string -> FetchOutcome.

Definition LF : string := String (ascii_of_nat 10) EmptyString.

(** The text of a template literal, line by line. *)
Definition lines (ls : list string) : string := String.concat LF ls.

Definition blank : string := EmptyString.

(* ================================================================== *)
(** * Texts and chart pieces shared by the two temperature commands *)
(* ================================================================== *)

(** The panel shown when the forecast could not be obtained. *)
Definition fetchErrorMarkdown : string :=
  lines [ "# データ取得中にエラーが発生しました"; blank;
          "無料APIを使っているため、時々アクセスが混み合うことがあります。"; blank;
          "**またアクセスしてみてください！** 🔄"; blank;
          "---"; blank;
          "💡 **ヒント**";
          "- 数秒待ってから再実行してみてください";
          "- それでもダメな場合は、少し時間をおいてから試してみてください"; blank;
          "*無料APIのため、レート制限がかかることがあります*" ].

(** The panel shown when the location could not be obtained. *)
Definition locationErrorMarkdown : string :=
  lines [ "# 位置情報の取得中にエラーが発生しました"; blank;
          "無料APIを使っているため、時々アクセスが混み合うことがあります。"; blank;
          "**もう一度試してみてください！** 🔄"; blank;
          "---"; blank;
          "💡 **ヒント**";
          "- 数秒待ってから再実行してみてください";
          "- VPNを使用している場合、一時的にオフにしてみてください"; blank;
          "*IPベースの位置検出のため、VPN経由だと位置が正確でない場合があります*" ].

Definition fetchErrorDetail : Detail.t :=
  {| Detail.isLoading := false; Detail.markdown := Some fetchErrorMarkdown;
     Detail.actions := [] |}.

Definition locationErrorDetail : Detail.t :=
  {| Detail.isLoading := false; Detail.markdown := Some locationErrorMarkdown;
     Detail.actions := [] |}.

Definition locationLoadingDetail : Detail.t :=
  {| Detail.isLoading := true; Detail.markdown := Some "位置情報を取得中...";
     Detail.actions := [] |}.

Definition is_T (c : ascii) : bool := Ascii.eqb c "T"%char.

Fixpoint until_T (s : string) : string :=
  match s with
  | EmptyString => EmptyString
  | String c rest => if is_T c then EmptyString else String c (until_T rest)
  end.

Fixpoint after_T (s : string) : option string :=
  match s with
  | EmptyString => None
  | String c rest => if is_T c then Some rest else after_T rest
  end.

(** [time.split("T")[1]]: what stands between the first and the second
    [T]; [None] ([undefined]) without a [T]. *)
Definition split_T_1 (time : string) : option string := until_T <$> after_T time.

Definition labels (data : WeatherResponse.t) : list (option string) :=
  map split_T_1 (WeatherResponse.time (WeatherResponse.hourly data)).

(** An optional string as it is written by [JSON.stringify] inside an
    array: [undefined] becomes [null]. *)
Definition label_value (o : option string) : value :=
  match o with Some s => VStr s | None => VNull end.

Definition apiUrl `{Host} (props : Props.t) (w : Window) : string :=
  "https://api.open-meteo.com/v1/forecast?latitude="
  +:+ Number_toString (Props.latitude props)
  +:+ "&longitude=" +:+ Number_toString (Props.longitude props)
  +:+ "&hourly=temperature_2m&timezone=" +:+ Props.timezoneId props
  +:+ "&start_hour=" +:+ startTime w +:+ "&end_hour=" +:+ endTime w.

(** One row of the table; [temp] is [undefined] when the temperature array
    is shorter than the time array. *)
Definition tableRow `{Host} (data : WeatherResponse.t) (index : nat) (time : string) : string :=
  let temp := WeatherResponse.temperature_2m (WeatherResponse.hourly data) !! index in
  "| " +:+ time +:+ " | "
  +:+ match temp with Some n => Number_toString n | None => "undefined" end
  +:+ WeatherResponse.units_temperature_2m (WeatherResponse.hourly_units data)
  +:+ " |".

Definition timeSeriesData `{Host} (data : WeatherResponse.t) : string :=
  String.concat LF
    (imap (tableRow data) (WeatherResponse.time (WeatherResponse.hourly data))).

(** The title line of the report. *)
Definition reportTitle (props : Props.t) : string :=
  "# " +:+ Props.city props +:+ ", " +:+ Props.country props +:+ " の気温推移（今日）".

(** The report from its title on, common to both commands. *)
Definition reportBody `{Host} (props : Props.t) (w : Window) (data : WeatherResponse.t)
    (chartUrl : string) : string :=
  lines [ reportTitle props; blank;
          "**期間**: " +:+ startTime w +:+ " 〜 " +:+ endTime w;
          "**場所**: " +:+ Props.city props +:+ ", " +:+ Props.country props;
          "**座標**: 緯度 " +:+ Number_toString (WeatherResponse.latitude data)
            +:+ ", 経度 " +:+ Number_toString (WeatherResponse.longitude data);
          "**タイムゾーン**: " +:+ WeatherResponse.timezone data;
          "**データ数**: "
            +:+ pretty (length (WeatherResponse.time (WeatherResponse.hourly data)))
            +:+ "件"; blank;
          "## グラフ"; blank;
          "![気温推移グラフ](" +:+ chartUrl +:+ ")"; blank;
          "## 時系列データ"; blank;
          "| 時刻 | 気温 |";
          "|------|------|";
          timeSeriesData data ].

Definition chartTitle (props : Props.t) (formattedDate : string) : string :=
  Props.city props +:+ ", " +:+ Props.country props +:+ " - " +:+ formattedDate.

(** The chart specification as [JSON.stringify] sees it; [yTicks] are the
    first properties of the y axis' [ticks], the only place where the two
    commands differ.  The [formatter] of the data labels is a function and
    is therefore left out of the text. *)
Definition chartConfigWith (yTicks : list (string * value)) (props : Props.t)
    (data : WeatherResponse.t) (formattedDate : string) : value :=
  let helvetica := VStr "Helvetica" in
  VObj [
    ("type", VStr "line");
    ("data", VObj [
      ("labels", VArr (map label_value (labels data)));
      ("datasets", VArr [ VObj [
        ("label", VStr ("気温 (" +:+ WeatherResponse.units_temperature_2m
                                      (WeatherResponse.hourly_units data) +:+ ")"));
        ("data", VArr (map VNum (WeatherResponse.temperature_2m
                                   (WeatherResponse.hourly data))));
        ("borderColor", VStr "rgba(135, 206, 250, 1)");
        ("backgroundColor", VStr "rgba(135, 206, 250, 0.3)");
        ("tension", VNum (Fin (2 # 5)));
        ("fill", VBool true) ] ]) ]);
    ("options", VObj [
      ("title", VObj [
        ("display", VBool true);
        ("text", VStr (chartTitle props formattedDate));
        ("fontSize", VNum (num_of_Z 20));
        ("fontColor", VStr "#333");
        ("fontFamily", helvetica) ]);
      ("legend", VObj [ ("display", VBool false) ]);
      ("scales", VObj [
        ("yAxes", VArr [ VObj [
          ("scaleLabel", VObj [ ("display", VBool false) ]);
          ("ticks", VObj (yTicks ++ [
            ("fontStyle", VStr "bold");
            ("fontFamily", helvetica) ]));
          ("gridLines", VObj [ ("color", VStr "rgba(0, 0, 0, 0.05)") ]) ] ]);
        ("xAxes", VArr [ VObj [
          ("scaleLabel", VObj [ ("display", VBool false) ]);
          ("ticks", VObj [
            ("fontStyle", VStr "bold");
            ("fontFamily", helvetica) ]);
          ("gridLines", VObj [ ("display", VBool false) ]) ] ]) ]);
      ("plugins", VObj [
        ("datalabels", VObj [
          ("display", VBool true);
          ("anchor", VStr "end");
          ("align", VStr "top");
          ("font", VObj [
            ("weight", VStr "bold");
            ("size", VNum (num_of_Z 14));
            ("family", helvetica) ]);
          ("color", VStr "#555") ]) ]) ]) ].

Definition chartUrlOf `{Host} (chartConfig : value) : string :=
  "https://quickchart.io/chart?w=800&h=400&bkg=white&c="
  +:+ encodeURIComponent (json_text (JSON_stringify chartConfig)).

Definition chartActions (chartUrl : string) : list Action :=
  [ OpenInBrowser "グラフを新しいタブで開く" chartUrl;
    CopyToClipboard "グラフURLをコピー" chartUrl ].

(** The y axis' [ticks] of a chart specification. *)
Definition yTicksOf (chartConfig : value) : option value :=
  options ← prop "options" chartConfig;
  scales ← prop "scales" options;
  axes ← prop "yAxes" scales;
  match axes with
  | VArr (axis :: _) => prop "ticks" axis
  | _ => None
  end.

(** What a [Command] of the temperature files returns: a panel of its
    own, or a [WeatherDisplay] element with its props. *)
Inductive Element : Type :=
| Panel (d : Detail.t)
| Display (props : Props.t).

(** [useFetch] once its request has settled, for a given [parseResponse]:
    a throw (a rejected [fetch] included) ends in [error], a parsed body
    in [data]. *)
Definition settled (parseResponse : Response.t -> completion value)
    (outcome : FetchOutcome) : UseFetch.t :=
  let result := match outcome with
                | Rejected e => Throw e
                | Responded response => parseResponse response
                end in
  match result with
  | Normal v => {| UseFetch.data := Some v; UseFetch.isLoading := false;
                   UseFetch.error := None |}
  | Throw e => {| UseFetch.data := None; UseFetch.isLoading := false;
                  UseFetch.error := Some e |}
  | Untyped => {| UseFetch.data := None; UseFetch.isLoading := true;
                  UseFetch.error := None |}
  end.

(** The [parseResponse] that [useFetch] applies when the caller gives
    none: a response that is not ok throws its status text, otherwise the
    body is decoded. *)
Definition defaultParseResponse (response : Response.t) : completion value :=
  if negb (Response.ok response)
  then Throw (MkError (Response.statusText response))
  else match Response.body response with
       | Some text => Normal (JSON_parse text)
       | None => Throw (MkError "Unexpected token in JSON")
       end.

(* ================================================================== *)
(** * The command with the stale-cache fallback *)
(* ================================================================== *)

Module Cached.

(** The four [useState] cells of [WeatherDisplay]. *)
Module State.
Record t : Type := {
  weather : value;
  isStale : bool;
  isLoading : bool;
  error : option Error
}.
End State.

Definition initialState : State.t :=
  {| State.weather := VNull; State.isStale := false;
     State.isLoading := true; State.error := None |}.

(** A call of [LocalStorage], as seen from outside. *)
Inductive StorageOp : Type :=
| GetItem (key : string)
| SetItem (key : string) (text : json).

(** The component's cells, the extension's [LocalStorage] (each stored
    string is a JSON text, kept as its syntax tree), and the storage
    calls made so far. *)
Record World : Type := {
  state : State.t;
  storage : gmap string json;
  trace : list StorageOp
}.

Definition withState (f : State.t -> State.t) (w : World) : World :=
  {| state := f (state w); storage := storage w; trace := trace w |}.

Definition setWeather (v : value) : World -> World :=
  withState (fun s => {| State.weather := v; State.isStale := State.isStale s;
                         State.isLoading := State.isLoading s;
                         State.error := State.error s |}).

Definition setIsStale (b : bool) : World -> World :=
  withState (fun s => {| State.weather := State.weather s; State.isStale := b;
                         State.isLoading := State.isLoading s;
                         State.error := State.error s |}).

Definition setIsLoading (b : bool) : World -> World :=
  withState (fun s => {| State.weather := State.weather s;
                         State.isStale := State.isStale s;
                         State.isLoading := b; State.error := State.error s |}).

Definition setError (e : option Error) : World -> World :=
  withState (fun s => {| State.weather := State.weather s;
                         State.isStale := State.isStale s;
                         State.isLoading := State.isLoading s;
                         State.error := e |}).

Definition LocalStorage_setItem (key : string) (text : json) (w : World) : World :=
  {| state := state w; storage := <[key := text]> (storage w);
     trace := trace w ++ [SetItem key text] |}.

Definition LocalStorage_getItem (key : string) (w : World) : option json * World :=
  (storage w !! key,
   {| state := state w; storage := storage w; trace := trace w ++ [GetItem key] |}).

Definition cacheKey : string := "cachedWeatherData".

(** The [try] block of [fetchData]: the world it leaves, and the error
    it threw, if any. *)
Definition try_block (net : Network) (apiUrl : string) (w : World)
  : World * option Error :=
  match net apiUrl with
  | Rejected e => (w, Some e)
  | Responded response =>
      if negb (Response.ok response)
      then (w, Some (MkError (Response.statusText response)))
      else
        match Response.body response with
        | None => (w, Some (MkError "Unexpected token in JSON"))
        | Some text =>
            let data := JSON_parse text in
            let w := setWeather data w in
            let w := LocalStorage_setItem cacheKey (JSON_stringify data) w in
            let w := setIsStale false w in
            let w := setError None w in
            (w, None)
        end
  end.

(** The [catch] block.  A stored JSON text is never the empty string, so
    [if (cachedData)] asks only whether the slot is filled. *)
Definition catch_block (e : Error) (w : World) : World :=
  let w := setError (Some e) w in
  let '(cachedData, w) := LocalStorage_getItem cacheKey w in
  match cachedData with
  | Some text => setIsStale true (setWeather (JSON_parse text) w)
  | None => w
  end.

Definition fetchData (net : Network) (apiUrl : string) (w : World) : World :=
  let w := setIsLoading true w in
  let '(w, thrown) := try_block net apiUrl w in
  let w := match thrown with
           | Some e => catch_block e w
           | None => w
           end in
  setIsLoading false w.

Definition chartConfig (props : Props.t) (data : WeatherResponse.t)
    (formattedDate : string) : value :=
  let temps := WeatherResponse.temperature_2m (WeatherResponse.hourly data) in
  chartConfigWith [ ("suggestedMin", VNum (yAxisMin temps));
                    ("suggestedMax", VNum (yAxisMax temps)) ]
                  props data formattedDate.

(** The warning shown above a report built from the cache. *)
Definition staleBanner : string :=
  LF +:+ LF
  +:+ "> ⚠️ **更新に失敗しました。前回取得したデータを表示しています。**"
  +:+ LF +:+ LF.

Definition staleMessage (isStale : bool) : string :=
  if isStale then staleBanner else EmptyString.

Definition markdown `{Host} (props : Props.t) (w : Window) (data : WeatherResponse.t)
    (isStale : bool) (chartUrl : string) : string :=
  staleMessage isStale +:+ reportBody props w data chartUrl.

(** One render of [WeatherDisplay] at clock reading [now]. *)
Definition WeatherDisplay `{Host} (props : Props.t) (now : Z) (st : State.t)
  : completion Detail.t :=
  w ← computeWindow (Props.timezoneId props) now;
  let weather := State.weather st in
  if State.isLoading st && negb (truthy weather) then mret loadingDetail
  else if bool_decide (is_Some (State.error st)) && negb (truthy weather)
  then mret fetchErrorDetail
  else if negb (truthy weather) || negb (truthy_opt (prop "hourly" weather))
  then mret loadingDetail
  else
    match WeatherResponse.decode weather with
    | None => Untyped
    | Some data =>
        date ← formattedDate (Props.timezoneId props) now;
        let chartUrl := chartUrlOf (chartConfig props data date) in
        mret {| Detail.isLoading := State.isLoading st && negb (truthy weather);
                Detail.markdown :=
                  Some (markdown props w data (State.isStale st) chartUrl);
                Detail.actions := chartActions chartUrl |}
    end.

Definition Command (location : UseFetch.t) : completion Element :=
  if UseFetch.isLoading location then mret (Panel locationLoadingDetail)
  else if bool_decide (is_Some (UseFetch.error location))
          || negb (truthy_opt (UseFetch.data location))
          || negb (truthy_opt (UseFetch.data location ≫= prop "success"))
  then mret (Panel locationErrorDetail)
  else
    match UseFetch.data location ≫= LocationResponse.decode with
    | None => Untyped
    | Some l =>
        mret (Display {| Props.latitude := LocationResponse.latitude l;
                         Props.longitude := LocationResponse.longitude l;
                         Props.city := LocationResponse.city l;
                         Props.country := LocationResponse.country l;
                         Props.timezoneId := LocationResponse.timezone_id l |})
    end.

(** A [WeatherDisplay] from mount to the render that follows its one
    fetch: the first render fixes the request URL (and throws at once
    when the zone is unknown, before any effect is registered), the
    effect runs [fetchData] on the initial cells, and the cells it
    leaves are rendered. *)
Definition runWeatherDisplay `{Host} (props : Props.t) (now : Z) (net : Network)
    (stored : gmap string json)
  : completion Detail.t * gmap string json * list StorageOp :=
  match computeWindow (Props.timezoneId props) now with
  | Normal w =>
      let world := fetchData net (apiUrl props w)
                     {| state := initialState; storage := stored; trace := [] |} in
      (WeatherDisplay props now (state world), storage world, trace world)
  | Throw e => (Throw e, stored, [])
  | Untyped => (Untyped, stored, [])
  end.

(** One report generation, from the settled location lookup on. *)
Definition runCommand `{Host} (location : UseFetch.t) (now : Z) (net : Network)
    (stored : gmap string json)
  : completion Detail.t * gmap string json * list StorageOp :=
  match Command location with
  | Normal (Panel d) => (Normal d, stored, [])
  | Normal (Display props) => runWeatherDisplay props now net stored
  | Throw e => (Throw e, stored, [])
  | Untyped => (Untyped, stored, [])
  end.

End Cached.

(* ================================================================== *)
(** * The plain temperature command ([src/temperature.tsx]) *)
(* ================================================================== *)

Module Plain.

(** A render's panel together with what it wrote to the console, one
    entry per [console.log] call. *)
Record Rendered : Type := {
  view : Detail.t;
  console : list (list string)
}.

Definition silent (d : Detail.t) : Rendered := {| view := d; console := [] |}.

Definition chartConfig (props : Props.t) (data : WeatherResponse.t)
    (formattedDate : string) : value :=
  chartConfigWith [ ("beginAtZero", VBool false) ] props data formattedDate.

Definition markdown `{Host} (props : Props.t) (w : Window) (data : WeatherResponse.t)
    (chartUrl : string) : string :=
  LF +:+ reportBody props w data chartUrl +:+ LF.

(** One render of [WeatherDisplay]; [fetched] is what
    [useFetch<WeatherResponse>(apiUrl)] returns at this render. *)
Definition WeatherDisplay `{Host} (props : Props.t) (now : Z) (fetched : UseFetch.t)
  : completion Rendered :=
  w ← computeWindow (Props.timezoneId props) now;
  if bool_decide (is_Some (UseFetch.error fetched)) then mret (silent fetchErrorDetail)
  else if negb (truthy_opt (UseFetch.data fetched))
          || negb (truthy_opt (UseFetch.data fetched ≫= prop "hourly"))
  then mret (silent loadingDetail)
  else
    match UseFetch.data fetched ≫= WeatherResponse.decode with
    | None => Untyped
    | Some data =>
        date ← formattedDate (Props.timezoneId props) now;
        let chartUrl := chartUrlOf (chartConfig props data date) in
        mret {| view := {| Detail.isLoading := UseFetch.isLoading fetched;
                           Detail.markdown := Some (markdown props w data chartUrl);
                           Detail.actions := chartActions chartUrl |};
                console := [ [ "Chart title:"; chartTitle props date ] ] |}
    end.

Definition Command (location : UseFetch.t) : completion Element :=
  if UseFetch.isLoading location then mret (Panel locationLoadingDetail)
  else if bool_decide (is_Some (UseFetch.error location))
          || negb (truthy_opt (UseFetch.data location))
          || negb (truthy_opt (UseFetch.data location ≫= prop "success"))
  then mret (Panel locationErrorDetail)
  else
    match UseFetch.data location ≫= LocationResponse.decode with
    | None => Untyped
    | Some l =>
        mret (Display {| Props.latitude := LocationResponse.latitude l;
                         Props.longitude := LocationResponse.longitude l;
                         Props.city := LocationResponse.city l;
                         Props.country := LocationResponse.country l;
                         Props.timezoneId := LocationResponse.timezone_id l |})
    end.

End Plain.

(* ================================================================== *)
(** * The current-conditions command for Tokyo *)
(* ================================================================== *)

Module Tokyo.

Definition TOKYO_LATITUDE : number := Fin (356762 # 10000).
Definition TOKYO_LONGITUDE : number := Fin (1396503 # 10000).

(** [interface WeatherResponse] of this file. *)
Module WeatherResponse.
Record Current : Type := {
  time : string;
  temperature_2m : number;
  relative_humidity_2m : number;
  weather_code : number;
  wind_speed_10m : number
}.
Record CurrentUnits : Type := {
  units_temperature_2m : string;
  units_relative_humidity_2m : string;
  units_wind_speed_10m : string
}.
Record t : Type := {
  latitude : number;
  longitude : number;
  current : Current;
  current_units : CurrentUnits
}.

Definition decode_current (v : value) : option Current :=
  tm ← prop "time" v ≫= as_string;
  temp ← prop "temperature_2m" v ≫= as_number;
  hum ← prop "relative_humidity_2m" v ≫= as_number;
  code ← prop "weather_code" v ≫= as_number;
  wind ← prop "wind_speed_10m" v ≫= as_number;
  Some {| time := tm; temperature_2m := temp; relative_humidity_2m := hum;
          weather_code := code; wind_speed_10m := wind |}.

Definition decode_units (v : value) : option CurrentUnits :=
  temp ← prop "temperature_2m" v ≫= as_string;
  hum ← prop "relative_humidity_2m" v ≫= as_string;
  wind ← prop "wind_speed_10m" v ≫= as_string;
  Some {| units_temperature_2m := temp; units_relative_humidity_2m := hum;
          units_wind_speed_10m := wind |}.

Definition decode (v : value) : option t :=
  lat ← prop "latitude" v ≫= as_number;
  lon ← prop "longitude" v ≫= as_number;
  cur ← prop "current" v ≫= decode_current;
  units ← prop "current_units" v ≫= decode_units;
  Some {| latitude := lat; longitude := lon; current := cur;
          current_units := units |}.
End WeatherResponse.

Definition apiUrl `{Host} : string :=
  "https://api.open-meteo.com/v1/forecast?latitude=" +:+ Number_toString TOKYO_LATITUDE
  +:+ "&longitude=" +:+ Number_toString TOKYO_LONGITUDE
  +:+ "&current=temperature_2m,relative_humidity_2m,weather_code,wind_speed_10m".

Definition parseResponse `{Host} (response : Response.t) : completion value :=
  if negb (Response.ok response)
  then Throw (MkError ("HTTP error! status: "
                       +:+ Number_toString (num_of_Z (Response.status response))))
  else match Response.body response with
       | Some text => Normal (JSON_parse text)
       | None => Throw (MkError "Unexpected token in JSON")
       end.

Definition errorMarkdown `{Host} (e : Error) : string :=
  let 'MkError message := e in
  lines [ "# エラー"; blank;
          "データの取得に失敗しました"; blank;
          "**エラー内容**: " +:+ message; blank;
          "**API URL**: " +:+ apiUrl; blank;
          "**対処方法**:";
          "- インターネット接続を確認してください";
          "- しばらく待ってから再度お試しください" ].

Definition markdown `{Host} (data : WeatherResponse.t) : string :=
  let cur := WeatherResponse.current data in
  let units := WeatherResponse.current_units data in
  lines [ blank;
          "# 東京の現在の天気"; blank;
          "## 基本情報";
          "- **時刻**: " +:+ WeatherResponse.time cur;
          "- **座標**: 緯度 " +:+ Number_toString (WeatherResponse.latitude data)
            +:+ ", 経度 " +:+ Number_toString (WeatherResponse.longitude data); blank;
          "## 気象データ";
          "- **気温**: " +:+ Number_toString (WeatherResponse.temperature_2m cur)
            +:+ WeatherResponse.units_temperature_2m units;
          "- **湿度**: " +:+ Number_toString (WeatherResponse.relative_humidity_2m cur)
            +:+ WeatherResponse.units_relative_humidity_2m units;
          "- **風速**: " +:+ Number_toString (WeatherResponse.wind_speed_10m cur)
            +:+ WeatherResponse.units_wind_speed_10m units;
          "- **天気コード**: " +:+ Number_toString (WeatherResponse.weather_code cur);
          blank ].

(** One render of [Command]; [fetched] is what [useFetch] returns. *)
Definition Command `{Host} (fetched : UseFetch.t) : completion Detail.t :=
  match UseFetch.error fetched with
  | Some e =>
      mret {| Detail.isLoading := false; Detail.markdown := Some (errorMarkdown e);
              Detail.actions := [] |}
  | None =>
      match UseFetch.data fetched with
      | None => mret loadingDetail
      | Some data =>
          if negb (truthy data) then mret loadingDetail
          else
            match prop "current" data with
            | None =>
                Throw (MkError "Cannot read properties of undefined (reading 'time')")
            | Some VNull =>
                Throw (MkError "Cannot read properties of null (reading 'time')")
            | Some _ =>
                match WeatherResponse.decode data with
                | None => Untyped
                | Some typed =>
                    mret {| Detail.isLoading := UseFetch.isLoading fetched;
                            Detail.markdown := Some (markdown typed);
                            Detail.actions := [] |}
                end
            end
      end
  end.

End Tokyo.

(* ================================================================== *)
(** * A host and sample data for the worked examples *)
(* ================================================================== *)

(** Decimal text for the numbers of the examples: integers, and values
    with one decimal digit. *)
Definition sampleNumberText (n : number) : string :=
  match n with
  | NaN => "NaN"
  | PosInf => "Infinity"
  | NegInf => "-Infinity"
  | Fin q =>
      let tenths := Qfloor (q * 10) in
      let a := Z.abs tenths in
      (if tenths <? 0 then "-" else EmptyString)
      +:+ pretty (a / 10)
      +:+ (if a mod 10 =? 0 then EmptyString else "." +:+ pretty (a mod 10))
  end.

(** Three zones with the offsets they had on 30 October 2025. *)
Definition sampleZones (tz : string) (now : Z) : option Z :=
  if String.eqb tz "Asia/Tokyo" then Some 540
  else if String.eqb tz "UTC" then Some 0
  else if String.eqb tz "America/New_York" then Some (-240)
  else None.

Definition sampleHost : Host :=
  {| Number_toString := sampleNumberText; zoneOffset := sampleZones |}.

(** 2025-10-30T06:00:00Z, that is 15:00 in Tokyo. *)
Definition afternoon : Z := 1761804000000.

(** 2025-10-29T18:30:00Z, that is 03:30 on the 30th in Tokyo. *)
Definition beforeDawn : Z := 1761762600000.

Definition tokyoProps : Props.t :=
  {| Props.latitude := Fin (357 # 10); Props.longitude := Fin (1397 # 10);
     Props.city := "Tokyo"; Props.country := "Japan";
     Props.timezoneId := "Asia/Tokyo" |}.

Definition sampleTimes : list string :=
  [ "2025-10-30T05:00"; "2025-10-30T06:00"; "2025-10-30T07:00"; "2025-10-30T08:00";
    "2025-10-30T09:00"; "2025-10-30T10:00"; "2025-10-30T11:00"; "2025-10-30T12:00";
    "2025-10-30T13:00"; "2025-10-30T14:00"; "2025-10-30T15:00" ].

(** Eleven hourly samples from -2.0 to 41.0. *)
Definition extremeTemps : list Q :=
  [ -2 # 1; -3 # 2; 0; 4; 9; 17; 26; 33; 38; 81 # 2; 41 ]%Q.

(** Eleven hourly samples from 10.0 to 25.0. *)
Definition mildTemps : list Q :=
  [ 10; 21 # 2; 12; 14; 17; 20; 23; 25; 49 # 2; 22; 19 ]%Q.

(** The body of a windowed-hourly response. *)
Definition forecastText (temps : list Q) : json :=
  JObject [
    ("latitude", JNumber (357 # 10));
    ("longitude", JNumber (1397 # 10));
    ("timezone", JString "Asia/Tokyo");
    ("hourly_units", JObject [ ("time", JString "iso8601");
                               ("temperature_2m", JString "°C") ]);
    ("hourly", JObject [ ("time", JArray (map JString sampleTimes));
                         ("temperature_2m", JArray (map JNumber temps)) ]) ].

Definition forecastData (temps : list Q) : WeatherResponse.t :=
  {| WeatherResponse.latitude := Fin (357 # 10);
     WeatherResponse.longitude := Fin (1397 # 10);
     WeatherResponse.timezone := "Asia/Tokyo";
     WeatherResponse.hourly :=
       {| WeatherResponse.time := sampleTimes;
          WeatherResponse.temperature_2m := map Fin temps |};
     WeatherResponse.hourly_units :=
       {| WeatherResponse.units_time := "iso8601";
          WeatherResponse.units_temperature_2m := "°C" |} |}.

(** The body of an instantaneous response: a [current] object and no
    [hourly] series. *)
Definition currentText : json :=
  JObject [
    ("latitude", JNumber (357 # 10));
    ("longitude", JNumber (1397 # 10));
    ("current_units", JObject [ ("temperature_2m", JString "°C");
                                ("relative_humidity_2m", JString "%");
                                ("wind_speed_10m", JString "km/h") ]);
    ("current", JObject [ ("time", JString "2025-10-30T15:00");
                          ("temperature_2m", JNumber (18 # 1));
                          ("relative_humidity_2m", JNumber (60 # 1));
                          ("weather_code", JNumber (3 # 1));
                          ("wind_speed_10m", JNumber (7 # 1)) ]) ].

(** The body the location service sends with status 200 when it refuses
    the lookup. *)
Definition refusedText : json :=
  JObject [ ("success", JBool false); ("message", JString "Reserved range") ].

Definition okResponse (text : json) : Response.t :=
  {| Response.ok := true; Response.status := 200; Response.statusText := "OK";
     Response.body := Some text |}.

Definition unavailable : Response.t :=
  {| Response.ok := false; Response.status := 503;
     Response.statusText := "Service Unavailable"; Response.body := None |}.

(** The window and the request of a report made in Tokyo at [afternoon]. *)
Definition sampleWindow : Window :=
  {| startTime := "2025-10-30T05:00"; endTime := "2025-10-30T15:00" |}.

Definition sampleUrl : string := @apiUrl sampleHost tokyoProps sampleWindow.

(** Networks that answer every request the same way. *)
Definition always (outcome : FetchOutcome) : Network := fun _ => outcome.

(** The bounds a chart specification asks of the y axis:
    [ticks.suggestedMin] and [ticks.suggestedMax], each [None] when the
    specification does not set it. *)
Definition axisBounds (chartConfig : value) : option value * option value :=
  match yTicksOf chartConfig with
  | Some ticks => (prop "suggestedMin" ticks, prop "suggestedMax" ticks)
  | None => (None, None)
  end.

Definition bound (z : Z) : option value := Some (VNum (num_of_Z z)).

(** A fetch that ends in the [catch] block: [fetch] rejected, the status
    was not ok, or the body did not decode. *)
Definition fetchFails (outcome : FetchOutcome) : bool :=
  match outcome with
  | Rejected _ => true
  | Responded response =>
      negb (Response.ok response) || bool_decide (Response.body response = None)
  end.

(** Structural induction through the lists inside a value or a text. *)
Section Induction.
Variable P : value -> Prop.
Hypothesis Hnull : P VNull.
Hypothesis Hbool : forall b, P (VBool b).
Hypothesis Hnum : forall n, P (VNum n).
Hypothesis Hstr : forall s, P (VStr s).
Hypothesis Harr : forall items, Forall P items -> P (VArr items).
Hypothesis Hobj : forall props, Forall (fun p => P (snd p)) props -> P (VObj props).

Fixpoint value_ind (v : value) : P v :=
  match v with
  | VNull => Hnull
  | VBool b => Hbool b
  | VNum n => Hnum n
  | VStr s => Hstr s
  | VArr items =>
      Harr items
        ((fix each (l : list value) : Forall P l :=
            match l with
            | [] => List.Forall_nil P
            | x :: rest => List.Forall_cons _ x rest (value_ind x) (each rest)
            end) items)
  | VObj props =>
      Hobj props
        ((fix each (l : list (string * value)) : Forall (fun p => P (snd p)) l :=
            match l with
            | [] => List.Forall_nil _
            | p :: rest =>
                List.Forall_cons _ p rest (value_ind (snd p)) (each rest)
            end) props)
  end.

Variable R : json -> Prop.
Hypothesis Jnull : R JNull.
Hypothesis Jbool : forall b, R (JBool b).
Hypothesis Jnum : forall q, R (JNumber q).
Hypothesis Jstr : forall s, R (JString s).
Hypothesis Jarr : forall elements, Forall R elements -> R (JArray elements).
Hypothesis Jobj :
  forall members, Forall (fun m => R (snd m)) members -> R (JObject members).

Fixpoint json_ind (t : json) : R t :=
  match t with
  | JNull => Jnull
  | JBool b => Jbool b
  | JNumber q => Jnum q
  | JString s => Jstr s
  | JArray elements =>
      Jarr elements
        ((fix each (l : list json) : Forall R l :=
            match l with
            | [] => List.Forall_nil R
            | x :: rest => List.Forall_cons _ x rest (json_ind x) (each rest)
            end) elements)
  | JObject members =>
      Jobj members
        ((fix each (l : list (string * json)) : Forall (fun m => R (snd m)) l :=
            match l with
            | [] => List.Forall_nil _
            | m :: rest =>
                List.Forall_cons _ m rest (json_ind (snd m)) (each rest)
            end) members)
  end.
End Induction.

(** The two ways a location lookup fails: in transport ([fetch] rejected
    or the status was not ok), or with an ok response whose decoded body
    has no truthy [success]. *)
Definition transportFailure (outcome : FetchOutcome) : bool :=
  match outcome with
  | Rejected _ => true
  | Responded response => negb (Response.ok response)
  end.

Definition semanticFailure (outcome : FetchOutcome) : bool :=
  match outcome with
  | Rejected _ => false
  | Responded response =>
      Response.ok response
      && match Response.body response with
         | Some text => negb (truthy_opt (prop "success" (JSON_parse text)))
         | None => false
         end
  end.

(** The test of [Command] on a settled location lookup. *)
Definition locationUnavailable (location : UseFetch.t) : bool :=
  bool_decide (is_Some (UseFetch.error location))
  || negb (truthy_opt (UseFetch.data location))
  || negb (truthy_opt (UseFetch.data location ≫= prop "success")).

(** A [WeatherDisplay] that has just been mounted over a given
    [LocalStorage]. *)
Definition mounted (stored : gmap string json) : Cached.World :=
  {| Cached.state := Cached.initialState; Cached.storage := stored; Cached.trace := [] |}.

(** The effect of a mounted [WeatherDisplay] run once per request, in
    order: [apiUrl] changes as the clock moves on, and each change runs
    [fetchData] again on the cells the previous run left.  Each run has
    settled before the next one starts; overlapping runs are not
    modelled. *)
Definition refetches (requests : list (Network * string)) (w : Cached.World)
  : Cached.World :=
  fold_left (fun w request => Cached.fetchData (fst request) (snd request) w) requests w.

Fixpoint all_chars (p : ascii -> bool) (s : string) : bool :=
  match s with
  | EmptyString => true
  | String c rest => p c && all_chars p rest
  end.

(** The characters [encodeURIComponent] can produce. *)
Definition uriSafe (c : ascii) : bool := unreserved c || Ascii.eqb c "%"%char.

Definition chartUrlPrefix : string :=
  "https://quickchart.io/chart?w=800&h=400&bkg=white&c=".

(** Characters that would end or split a query parameter or may not
    stand in a URL: [& = # ? + / : ; ,], space, the double quote, line
    breaks, [< > [ ]] and the backslash. *)
Definition is_delimiter (c : ascii) : bool :=
  bool_decide (N_of_ascii c ∈ [38; 61; 35; 63; 43; 47; 58; 59; 44; 32; 34; 10; 13; 60; 62;
                               91; 93; 92]%N).

Definition not_T (c : ascii) : bool := negb (is_T c).

(** The props [Command] hands to [WeatherDisplay] for a location. *)
Definition propsOf (l : LocationResponse.t) : Props.t :=
  {| Props.latitude := LocationResponse.latitude l;
     Props.longitude := LocationResponse.longitude l;
     Props.city := LocationResponse.city l;
     Props.country := LocationResponse.country l;
     Props.timezoneId := LocationResponse.timezone_id l |}.

(** The body of a successful location lookup. *)
Definition locationText : json :=
  JObject [
    ("ip", JString "203.0.113.7");
    ("success", JBool true);
    ("city", JString "Tokyo");
    ("country", JString "Japan");
    ("latitude", JNumber (357 # 10));
    ("longitude", JNumber (1397 # 10));
    ("timezone", JObject [ ("id", JString "Asia/Tokyo"); ("utc", JString "+09:00") ]) ].

(* ================================================================== *)
(** * Numbers: comparison, minimum and maximum *)
(* ================================================================== *)

Lemma Qltb_lt (a b : Q) : Qltb a b = true <-> (a < b)%Q.
Proof.
  unfold Qltb. rewrite negb_true_iff, <- not_true_iff_false, Qle_bool_iff.
  split; [apply Qnot_le_lt | apply Qlt_not_le].
Qed.

Lemma Qltb_ge (a b : Q) : Qltb a b = false <-> (b <= a)%Q.
Proof.
  unfold Qltb. rewrite negb_false_iff. apply Qle_bool_iff.
Qed.

(** Folding [Math.min] over finite numbers yields the least of them. *)
Lemma Math_min_from_Fin (l : list Q) : forall a : Q,
  exists m : Q,
    Math_min_from (Fin a) (map Fin l) = Fin m
    /\ m ∈ a :: l /\ Forall (fun x => (m <= x)%Q) (a :: l).
Proof.
  induction l as [|x l IH]; intros a; simpl.
  - exists a. repeat split; [left | repeat constructor; apply Qle_refl].
  - destruct (Qltb x a) eqn:E.
    + destruct (IH x) as (m & Hm & Hin & Hall).
      apply Qltb_lt in E. inversion Hall as [|? ? Hmx Hrest]; subst.
      exists m. split; [exact Hm|]. split; [right; exact Hin|].
      constructor; [|exact Hall].
      apply Qle_trans with x; [exact Hmx | apply Qlt_le_weak, E].
    + destruct (IH a) as (m & Hm & Hin & Hall).
      apply Qltb_ge in E. inversion Hall as [|? ? Hma Hrest]; subst.
      exists m. split; [exact Hm|]. split.
      * apply elem_of_cons in Hin as [->|Hin]; [left | right; right; exact Hin].
      * constructor; [exact Hma|]. constructor; [|exact Hrest].
        apply Qle_trans with a; assumption.
Qed.

Lemma Math_max_from_Fin (l : list Q) : forall a : Q,
  exists m : Q,
    Math_max_from (Fin a) (map Fin l) = Fin m
    /\ m ∈ a :: l /\ Forall (fun x => (x <= m)%Q) (a :: l).
Proof.
  induction l as [|x l IH]; intros a; simpl.
  - exists a. repeat split; [left | repeat constructor; apply Qle_refl].
  - unfold num_gt; simpl. destruct (Qltb a x) eqn:E.
    + destruct (IH x) as (m & Hm & Hin & Hall).
      apply Qltb_lt in E. inversion Hall as [|? ? Hxm Hrest]; subst.
      exists m. split; [exact Hm|]. split; [right; exact Hin|].
      constructor; [|exact Hall].
      apply Qle_trans with x; [apply Qlt_le_weak, E | exact Hxm].
    + destruct (IH a) as (m & Hm & Hin & Hall).
      apply Qltb_ge in E. inversion Hall as [|? ? Ham Hrest]; subst.
      exists m. split; [exact Hm|]. split.
      * apply elem_of_cons in Hin as [->|Hin]; [left | right; right; exact Hin].
      * constructor; [exact Ham|]. constructor; [|exact Hrest].
        apply Qle_trans with a; assumption.
Qed.

(** On a non-empty list of finite samples [Math.min] is the least sample
    and [Math.max] the greatest. *)
Lemma minTemp_least (temps : list Q) :
  temps <> [] ->
  exists lo, minTemp (map Fin temps) = Fin lo
             /\ lo ∈ temps /\ Forall (fun x => (lo <= x)%Q) temps.
Proof.
  destruct temps as [|x l]; [congruence | intros _].
  unfold minTemp, Math_min. simpl. apply Math_min_from_Fin.
Qed.

Lemma maxTemp_greatest (temps : list Q) :
  temps <> [] ->
  exists hi, maxTemp (map Fin temps) = Fin hi
             /\ hi ∈ temps /\ Forall (fun x => (x <= hi)%Q) temps.
Proof.
  destruct temps as [|x l]; [congruence | intros _].
  unfold maxTemp, Math_max. simpl. apply Math_max_from_Fin.
Qed.

Lemma Qred_inject_Z (z : Z) : Qred (inject_Z z) = inject_Z z.
Proof.
  unfold Qred, inject_Z.
  pose proof (Z.ggcd_correct_divisors z 1) as Hd.
  pose proof (Z.ggcd_gcd z 1) as Hg.
  destruct (Z.ggcd z 1) as [g [aa bb]]. cbn [fst snd] in *.
  rewrite Z.gcd_1_r in Hg. subst g. destruct Hd as [Ha Hb].
  rewrite Z.mul_1_l in Ha, Hb. subst aa bb. reflexivity.
Qed.

Lemma Qred_inject_Z_plus (a b : Z) : Qred (inject_Z a + inject_Z b) = inject_Z (a + b).
Proof. rewrite <- inject_Z_plus. apply Qred_inject_Z. Qed.

(** The two bounds on finite samples, in closed form. *)
Lemma yAxisMin_Fin (temps : list number) (lo : Q) :
  minTemp temps = Fin lo ->
  ((lo < 0)%Q -> yAxisMin temps = num_of_Z (Qfloor lo))
  /\ (~ (lo < 0)%Q -> yAxisMin temps = num_of_Z 0).
Proof.
  intros E. unfold yAxisMin. rewrite E. simpl.
  destruct (Qltb lo (inject_Z 0)) eqn:Hlt.
  - apply Qltb_lt in Hlt. split; [reflexivity | intros Hn; contradiction].
  - apply Qltb_ge in Hlt. split; [|reflexivity].
    intros Hl. exfalso. exact (Qlt_not_le _ _ Hl Hlt).
Qed.

Lemma yAxisMax_Fin (temps : list number) (hi : Q) :
  maxTemp temps = Fin hi ->
  ((40 < hi)%Q -> yAxisMax temps = num_of_Z (Qceiling hi + 2))
  /\ (~ (40 < hi)%Q -> yAxisMax temps = num_of_Z 40).
Proof.
  intros E. unfold yAxisMax, num_gt. rewrite E. simpl.
  destruct (Qltb (inject_Z 40) hi) eqn:Hlt.
  - apply Qltb_lt in Hlt. split; [|intros Hn; contradiction].
    intros _. unfold num_of_Z. f_equal. apply Qred_inject_Z_plus.
  - apply Qltb_ge in Hlt. split; [|reflexivity].
    intros Hl. exfalso. exact (Qlt_not_le _ _ Hl Hlt).
Qed.

(* ================================================================== *)
(** * The y axis of the chart *)
(* ================================================================== *)

Lemma Cached_axisBounds (props : Props.t) (data : WeatherResponse.t) (date : string) :
  axisBounds (Cached.chartConfig props data date)
  = (Some (VNum (yAxisMin (WeatherResponse.temperature_2m (WeatherResponse.hourly data)))),
     Some (VNum (yAxisMax (WeatherResponse.temperature_2m (WeatherResponse.hourly data))))).
Proof. reflexivity. Qed.

Lemma Plain_axisBounds (props : Props.t) (data : WeatherResponse.t) (date : string) :
  axisBounds (Plain.chartConfig props data date) = (None, None).
Proof. reflexivity. Qed.

(** C3, as the claim states it, fails on [src/temperature.tsx]: for the
    eleven samples from -2.0 to 41.0 its chart specification carries no
    y-axis bounds at all, so they are not -2 and 43. *)
Lemma plain_chart_has_no_axis_bounds :
  axisBounds (Plain.chartConfig tokyoProps (forecastData extremeTemps) "October 30, 2025")
  = (None, None)
  /\ axisBounds (Plain.chartConfig tokyoProps (forecastData extremeTemps) "October 30, 2025")
     <> (bound (-2), bound 43).
Proof. split; [reflexivity | discriminate]. Qed.

(** C3, amended: in the command with the stale-cache fallback, for every
    non-empty list of temperature samples the chart's y-axis bounds are
    y-min = floor(least sample) if the least sample is below 0 and
    otherwise 0, and y-max = ceil(greatest sample) + 2 if the greatest
    sample is above 40 and otherwise 40; samples from -2.0 to 41.0 give
    -2 and 43, samples from 10.0 to 25.0 give 0 and 40.  The chart of
    [src/temperature.tsx] sets no y-axis bounds. *)
Theorem axis_bounds_rule (temps : list Q) (props : Props.t) (data : WeatherResponse.t)
    (date : string) :
  temps <> [] ->
  WeatherResponse.temperature_2m (WeatherResponse.hourly data) = map Fin temps ->
  (exists lo hi : Q,
      (lo ∈ temps /\ Forall (fun x => (lo <= x)%Q) temps)
      /\ (hi ∈ temps /\ Forall (fun x => (x <= hi)%Q) temps)
      /\ ((lo < 0)%Q ->
          (axisBounds (Cached.chartConfig props data date)).1 = bound (Qfloor lo))
      /\ (~ (lo < 0)%Q -> (axisBounds (Cached.chartConfig props data date)).1 = bound 0)
      /\ ((40 < hi)%Q ->
          (axisBounds (Cached.chartConfig props data date)).2 = bound (Qceiling hi + 2))
      /\ (~ (40 < hi)%Q -> (axisBounds (Cached.chartConfig props data date)).2 = bound 40))
  /\ axisBounds (Cached.chartConfig props (forecastData extremeTemps) date)
     = (bound (-2), bound 43)
  /\ axisBounds (Cached.chartConfig props (forecastData mildTemps) date)
     = (bound 0, bound 40)
  /\ axisBounds (Plain.chartConfig props data date) = (None, None).
Proof.
  intros Hne Htemps. repeat split; try reflexivity.
  destruct (minTemp_least temps Hne) as (lo & Hlo & Hlo_in & Hlo_least).
  destruct (maxTemp_greatest temps Hne) as (hi & Hhi & Hhi_in & Hhi_greatest).
  destruct (yAxisMin_Fin _ _ Hlo) as [Hmin_neg Hmin_pos].
  destruct (yAxisMax_Fin _ _ Hhi) as [Hmax_hot Hmax_mild].
  exists lo, hi. rewrite Cached_axisBounds, Htemps. unfold bound. simpl.
  repeat split; auto; intros Hc; do 2 f_equal; auto.
Qed.

Lemma axis_bounds_rule_witness :
  extremeTemps <> []
  /\ axisBounds (Cached.chartConfig tokyoProps (forecastData extremeTemps) "October 30, 2025")
     = (bound (-2), bound 43).
Proof.
  split; [discriminate|].
  apply (axis_bounds_rule extremeTemps tokyoProps (forecastData extremeTemps)
           "October 30, 2025"); [discriminate | reflexivity].
Defined.

(** C10: on an empty list of samples the computation still yields
    bounds, and they are the defaults 0 and 40: [Math.min()] is +Infinity
    and [Math.max()] is -Infinity, so neither widening test succeeds. *)
Theorem axis_bounds_empty :
  minTemp [] = PosInf
  /\ maxTemp [] = NegInf
  /\ num_lt (minTemp []) (num_of_Z 0) = false
  /\ num_gt (maxTemp []) (num_of_Z 40) = false
  /\ yAxisMin [] = num_of_Z 0
  /\ yAxisMax [] = num_of_Z 40
  /\ axisBounds (Cached.chartConfig tokyoProps (forecastData []) "October 30, 2025")
     = (bound 0, bound 40).
Proof. repeat split. Qed.

(* ================================================================== *)
(** * The time window *)
(* ================================================================== *)

Lemma civil_from_days_range (days : Z) :
  let '(y, m, d) := civil_from_days days in 1 <= m <= 12 /\ 1 <= d <= 31.
Proof.
  unfold civil_from_days.
  set (z := days + 719468). set (era := z / 146097).
  set (doe := z - era * 146097).
  assert (Hdoe : 0 <= doe <= 146096)
    by (unfold doe, era; Z.div_mod_to_equations; lia).
  clearbody doe. clear era z.
  set (yoe := (doe - doe / 1460 + doe / 36524 - doe / 146096) / 365).
  set (doy := doe - (365 * yoe + yoe / 4 - yoe / 100)).
  assert (Hdoy : 0 <= doy <= 365)
    by (unfold doy, yoe; Z.div_mod_to_equations; lia).
  clearbody doy. clear yoe.
  set (mp := (5 * doy + 2) / 153).
  assert (Hmp : 0 <= mp <= 11) by (unfold mp; Z.div_mod_to_equations; lia).
  assert (Hd : 1 <= doy - (153 * mp + 2) / 5 + 1 <= 31)
    by (unfold mp; Z.div_mod_to_equations; lia).
  destruct (mp <? 10) eqn:E; [apply Z.ltb_lt in E | apply Z.ltb_ge in E]; lia.
Qed.

Lemma local_fields_date (offset now : Z) :
  (year (local_fields offset now), month (local_fields offset now),
   day (local_fields offset now))
  = civil_from_days ((now + offset * 60000) / 86400000).
Proof.
  unfold local_fields.
  destruct (civil_from_days ((now + offset * 60000) / 86400000)) as [[y m] d].
  reflexivity.
Qed.

(** The clock fields are the local time of day cut to whole minutes. *)
Lemma local_fields_clock (offset now : Z) :
  let f := local_fields offset now in
  0 <= hour f < 24 /\ 0 <= minute f < 60
  /\ exists rest, 0 <= rest < 60000
       /\ (now + offset * 60000) mod 86400000
          = hour f * 3600000 + minute f * 60000 + rest.
Proof.
  unfold local_fields.
  destruct (civil_from_days ((now + offset * 60000) / 86400000)) as [[y m] d].
  cbn [hour minute].
  set (t := (now + offset * 60000) mod 86400000).
  assert (Ht : 0 <= t < 86400000) by (apply Z.mod_pos_bound; lia).
  clearbody t.
  split; [Z.div_mod_to_equations; lia|].
  split; [Z.div_mod_to_equations; lia|].
  exists (t mod 60000). Z.div_mod_to_equations. lia.
Qed.

Lemma ascii_compare_refl (c : ascii) : Ascii.compare c c = Eq.
Proof. unfold Ascii.compare. apply N.compare_refl. Qed.

(** A common prefix does not take part in the lexical order. *)
Lemma compare_common_prefix (p a b : string) :
  String.compare (p +:+ a) (p +:+ b) = String.compare a b.
Proof.
  induction p as [|c p IH]; [reflexivity|].
  simpl. rewrite ascii_compare_refl. exact IH.
Qed.

(** The clock string against the fixed hour, decided for every minute of
    the day. *)
Definition clock_order (h m : Z) : bool :=
  match String.compare (two_digit h +:+ ":" +:+ two_digit m) "05:00" with
  | Lt => h <? 5
  | Eq => (h =? 5) && (m =? 0)
  | Gt => 5 <=? h
  end.

Lemma clock_order_table :
  forallb (fun h => forallb (fun m => clock_order (Z.of_nat h) (Z.of_nat m)) (seq 0 60))
          (seq 0 24) = true.
Proof. vm_compute. reflexivity. Qed.

Lemma clock_order_holds (h m : Z) :
  0 <= h < 24 -> 0 <= m < 60 -> clock_order h m = true.
Proof.
  intros Hh Hm. pose proof clock_order_table as T.
  rewrite forallb_forall in T.
  specialize (T (Z.to_nat h)). rewrite forallb_forall in T.
  specialize (fun P => T P (Z.to_nat m)).
  rewrite !Z2Nat.id in T by lia.
  apply T; apply in_seq; lia.
Qed.

Lemma computeWindow_valid `{Host} (timezoneId : string) (now offset : Z) :
  zoneOffset timezoneId now = Some offset ->
  computeWindow timezoneId now
  = Normal {| startTime := format_en_CA (local_fields offset now) +:+ "T05:00";
              endTime := format_en_CA (local_fields offset now) +:+ "T"
                         +:+ format_en_GB (local_fields offset now) |}.
Proof.
  intros Hz. unfold computeWindow, dateString, timeString, zoned_fields.
  rewrite Hz. reflexivity.
Qed.

Lemma computeWindow_invalid `{Host} (timezoneId : string) (now : Z) :
  zoneOffset timezoneId now = None ->
  computeWindow timezoneId now
  = Throw (MkError ("Invalid time zone specified: " +:+ timezoneId)).
Proof.
  intros Hz. unfold computeWindow, dateString, timeString, zoned_fields.
  rewrite Hz. reflexivity.
Qed.

(** C2: for every instant and every zone the database knows, the window
    starts at the zone-local calendar date at 05:00 and ends at that same
    date with the local wall-clock time cut to minutes, both written
    [YYYY-MM-DDTHH:mm]; before 05:00 local time the end is lexically
    below the start, on the same date, and nothing is shifted. *)
Theorem window_is_local_day_from_five `{Host} (timezoneId : string) (now offset : Z) :
  zoneOffset timezoneId now = Some offset ->
  let f := local_fields offset now in
  let date := pretty (year f) +:+ "-" +:+ two_digit (month f) +:+ "-" +:+ two_digit (day f) in
  exists w : Window,
    computeWindow timezoneId now = Normal w
    /\ startTime w = date +:+ "T05:00"
    /\ endTime w = date +:+ "T" +:+ two_digit (hour f) +:+ ":" +:+ two_digit (minute f)
    /\ (year f, month f, day f) = civil_from_days ((now + offset * 60000) / 86400000)
    /\ (1 <= month f <= 12 /\ 1 <= day f <= 31)
    /\ (0 <= hour f < 24 /\ 0 <= minute f < 60)
    /\ (exists rest, 0 <= rest < 60000
          /\ (now + offset * 60000) mod 86400000
             = hour f * 3600000 + minute f * 60000 + rest)
    /\ (hour f < 5 -> String.compare (endTime w) (startTime w) = Lt)
    /\ (5 <= hour f -> String.compare (endTime w) (startTime w) <> Lt).
Proof.
  intros Hz f date.
  destruct (local_fields_clock offset now) as (Hh & Hm & Hrest). fold f in Hh, Hm, Hrest.
  pose proof (local_fields_date offset now) as Hdate. fold f in Hdate.
  pose proof (civil_from_days_range ((now + offset * 60000) / 86400000)) as Hrange.
  rewrite <- Hdate in Hrange.
  eexists. split; [apply computeWindow_valid; exact Hz|]. cbn [startTime endTime].
  fold f. change (format_en_CA f) with date.
  change (format_en_GB f) with (two_digit (hour f) +:+ ":" +:+ two_digit (minute f)).
  repeat (split; [first [reflexivity | assumption | lia]|]).
  pose proof (clock_order_holds (hour f) (minute f) Hh Hm) as Hc.
  unfold clock_order in Hc.
  change (date +:+ "T05:00") with (date +:+ "T" +:+ "05:00").
  rewrite (compare_common_prefix date), (compare_common_prefix "T").
  destruct (String.compare (two_digit (hour f) +:+ ":" +:+ two_digit (minute f)) "05:00");
    split; intros Hcond; try discriminate; try reflexivity; exfalso;
    rewrite ?andb_true_iff, ?Z.eqb_eq, ?Z.ltb_lt, ?Z.leb_le in Hc; lia.
Qed.

Lemma window_is_local_day_from_five_witness :
  @zoneOffset sampleHost "Asia/Tokyo" beforeDawn = Some 540
  /\ exists w : Window,
       @computeWindow sampleHost "Asia/Tokyo" beforeDawn = Normal w
       /\ startTime w = "2025-10-30T05:00"
       /\ endTime w = "2025-10-30T03:30".
Proof.
  split; [reflexivity|].
  destruct (@window_is_local_day_from_five sampleHost "Asia/Tokyo" beforeDawn 540
              eq_refl) as (w & Hw & Hstart & Hend & _).
  exists w. split; [exact Hw|]. split; [rewrite Hstart | rewrite Hend]; reflexivity.
Defined.

(* ================================================================== *)
(** * [JSON.parse] after [JSON.stringify] *)
(* ================================================================== *)

Lemma set_prop_fresh (k : string) (v : value) (ps : list (string * value)) :
  k ∉ map fst ps -> set_prop k v ps = ps ++ [(k, v)].
Proof.
  induction ps as [|[k' v'] ps IH]; simpl; intros Hfresh; [reflexivity|].
  apply not_elem_of_cons in Hfresh as [Hne Hfresh].
  destruct (String.eqb k' k) eqn:E.
  - apply String.eqb_eq in E. congruence.
  - f_equal. apply IH, Hfresh.
Qed.

Lemma set_prop_key_inv (k x : string) (v : value) (ps : list (string * value)) :
  x ∈ map fst (set_prop k v ps) -> x = k \/ x ∈ map fst ps.
Proof.
  induction ps as [|[k' v'] ps IH]; simpl.
  - intros Hin. apply list_elem_of_singleton in Hin. left. exact Hin.
  - destruct (String.eqb k' k); simpl; intros Hin.
    + right. exact Hin.
    + apply elem_of_cons in Hin as [->|Hin]; [right; left|].
      destruct (IH Hin) as [->|Hin']; [left; reflexivity | right; right; exact Hin'].
Qed.

Lemma set_prop_NoDup (k : string) (v : value) (ps : list (string * value)) :
  NoDup (map fst ps) -> NoDup (map fst (set_prop k v ps)).
Proof.
  induction ps as [|[k' v'] ps IH]; simpl; intros Hnd.
  - apply NoDup_singleton.
  - apply NoDup_cons in Hnd as [Hk' Hnd].
    destruct (String.eqb k' k) eqn:E; simpl; apply NoDup_cons.
    + split; assumption.
    + split; [|apply IH, Hnd].
      intros Hin. apply set_prop_key_inv in Hin as [->|Hin]; [|contradiction].
      rewrite String.eqb_refl in E. discriminate.
Qed.

Lemma set_prop_Forall (Q : value -> Prop) (k : string) (v : value)
    (ps : list (string * value)) :
  Q v -> Forall (fun p => Q (snd p)) ps -> Forall (fun p => Q (snd p)) (set_prop k v ps).
Proof.
  intros Hv. induction 1 as [|[k' v'] ps Hp Hps IH]; simpl.
  - repeat constructor. exact Hv.
  - destruct (String.eqb k' k); constructor; assumption.
Qed.

(** Defining the members one after the other keeps every name once and
    only takes values from the members. *)
Lemma define_from_invariant (Q : value -> Prop) (ms : list (string * value)) :
  forall acc,
    Forall (fun p => Q (snd p)) ms ->
    Forall (fun p => Q (snd p)) acc -> NoDup (map fst acc) ->
    let result := fold_left (fun acc kv => set_prop (fst kv) (snd kv) acc) ms acc in
    Forall (fun p => Q (snd p)) result /\ NoDup (map fst result).
Proof.
  induction ms as [|[k v] ms IH]; simpl; intros acc Hms Hacc Hnd; [split; assumption|].
  inversion Hms as [|? ? Hv Hrest]; subst.
  apply IH; [exact Hrest | apply set_prop_Forall; assumption | apply set_prop_NoDup, Hnd].
Qed.

(** Members with pairwise different names become the properties as they
    stand. *)
Lemma define_from_distinct (ms : list (string * value)) :
  forall acc,
    NoDup (map fst (acc ++ ms)) ->
    fold_left (fun acc kv => set_prop (fst kv) (snd kv) acc) ms acc = acc ++ ms.
Proof.
  induction ms as [|[k v] ms IH]; simpl; intros acc Hnd.
  - symmetry. apply app_nil_r.
  - assert (Hfresh : k ∉ map fst acc).
    { rewrite List.map_app in Hnd. apply NoDup_app in Hnd as (_ & Hdisj & _).
      intros Hin. apply (Hdisj k Hin). simpl. left. }
    rewrite set_prop_fresh by exact Hfresh.
    rewrite IH; rewrite <- app_assoc; [reflexivity | exact Hnd].
Qed.

Lemma define_props_distinct (ms : list (string * value)) :
  NoDup (map fst ms) -> define_props ms = ms.
Proof. intros Hnd. unfold define_props. apply (define_from_distinct ms []), Hnd. Qed.

(** Whatever [JSON.parse] returns is free of NaN, infinities and repeated
    property names. *)
Lemma JSON_parse_safe (t : json) : json_safe (JSON_parse t) = true.
Proof.
  induction t as [| | | |elements IH|members IH] using json_ind; simpl; try reflexivity.
  - apply forallb_forall. intros v Hin. apply in_map_iff in Hin as (t & <- & Hin).
    rewrite List.Forall_forall in IH. apply IH, Hin.
  - destruct (define_from_invariant (fun v => json_safe v = true)
                (map (fun m => (fst m, JSON_parse (snd m))) members) []) as [Hsafe Hnd].
    + apply List.Forall_forall. intros p Hin.
      apply in_map_iff in Hin as (m & <- & Hin).
      rewrite List.Forall_forall in IH. apply (IH m Hin).
    + constructor.
    + constructor.
    + apply andb_true_iff. split.
      * apply forallb_forall. rewrite List.Forall_forall in Hsafe. exact Hsafe.
      * apply bool_decide_eq_true. exact Hnd.
Qed.

(** On such a value the text written by [JSON.stringify] parses back to
    the value itself. *)
Lemma JSON_parse_stringify (v : value) :
  json_safe v = true -> JSON_parse (JSON_stringify v) = v.
Proof.
  induction v as [| |n| |items IH|props IH] using value_ind; simpl;
    try reflexivity; intros Hsafe.
  - destruct n; try discriminate; reflexivity.
  - f_equal. rewrite List.map_map.
    induction IH as [|x items Hx _ IHitems]; [reflexivity|].
    simpl in Hsafe. apply andb_true_iff in Hsafe as [Hsx Hsitems].
    simpl. rewrite Hx by exact Hsx. f_equal. apply IHitems, Hsitems.
  - apply andb_true_iff in Hsafe as [Hvalues Hnames].
    apply bool_decide_eq_true in Hnames.
    f_equal. rewrite List.map_map. simpl.
    replace (map (fun p => (fst p, JSON_parse (JSON_stringify (snd p)))) props)
      with props; [apply define_props_distinct, Hnames|].
    clear Hnames.
    induction IH as [|[k x] props Hx _ IHprops]; [reflexivity|].
    simpl in Hvalues. apply andb_true_iff in Hvalues as [Hsx Hsprops].
    simpl. simpl in Hx. rewrite Hx by exact Hsx. f_equal. apply IHprops, Hsprops.
Qed.

(** A decoded body survives being written as text and parsed again. *)
Lemma JSON_round_trip (text : json) :
  JSON_parse (JSON_stringify (JSON_parse text)) = JSON_parse text.
Proof. apply JSON_parse_stringify, JSON_parse_safe. Qed.

(* ================================================================== *)
(** * One run of [fetchData] *)
(* ================================================================== *)

Lemma try_block_failure (net : Network) (url : string) (w : Cached.World) :
  fetchFails (net url) = true -> exists e, Cached.try_block net url w = (w, Some e).
Proof.
  unfold fetchFails, Cached.try_block. destruct (net url) as [e|r]; [eauto|].
  destruct (Response.ok r); simpl; [|eauto].
  destruct (Response.body r); [|eauto].
  intros Hf. apply bool_decide_eq_true in Hf. discriminate.
Qed.

Lemma try_block_success (net : Network) (url : string) (w : Cached.World)
    (r : Response.t) (text : json) :
  net url = Responded r -> Response.ok r = true -> Response.body r = Some text ->
  Cached.try_block net url w
  = (Cached.setError None
       (Cached.setIsStale false
          (Cached.LocalStorage_setItem Cached.cacheKey (JSON_stringify (JSON_parse text))
             (Cached.setWeather (JSON_parse text) w))),
     None).
Proof.
  intros Hnet Hok Hbody. unfold Cached.try_block. rewrite Hnet, Hok, Hbody. reflexivity.
Qed.

(** The [catch] path is taken exactly by the fetches that fail. *)
Lemma try_block_throws_iff (net : Network) (url : string) (w : Cached.World) :
  is_Some (Cached.try_block net url w).2 <-> fetchFails (net url) = true.
Proof.
  split.
  - unfold fetchFails, Cached.try_block. destruct (net url) as [e|r]; [reflexivity|].
    destruct (Response.ok r); simpl; [|reflexivity].
    destruct (Response.body r); simpl; [|reflexivity].
    intros [e He]. discriminate.
  - intros Hf. destruct (try_block_failure net url w Hf) as [e He].
    rewrite He. simpl. eauto.
Qed.

Lemma fetchData_failure_cached (net : Network) (url : string) (w : Cached.World)
    (text : json) :
  fetchFails (net url) = true ->
  Cached.storage w !! Cached.cacheKey = Some text ->
  exists e,
    Cached.fetchData net url w
    = {| Cached.state := {| Cached.State.weather := JSON_parse text;
                            Cached.State.isStale := true;
                            Cached.State.isLoading := false;
                            Cached.State.error := Some e |};
         Cached.storage := Cached.storage w;
         Cached.trace := Cached.trace w ++ [Cached.GetItem Cached.cacheKey] |}.
Proof.
  intros Hf Hcached. unfold Cached.fetchData.
  destruct (try_block_failure net url (Cached.setIsLoading true w) Hf) as [e He].
  rewrite He. exists e. unfold Cached.catch_block, Cached.LocalStorage_getItem.
  simpl. rewrite Hcached. reflexivity.
Qed.

Lemma fetchData_failure_empty (net : Network) (url : string) (w : Cached.World) :
  fetchFails (net url) = true ->
  Cached.storage w !! Cached.cacheKey = None ->
  exists e,
    Cached.fetchData net url w
    = {| Cached.state := {| Cached.State.weather := Cached.State.weather (Cached.state w);
                            Cached.State.isStale := Cached.State.isStale (Cached.state w);
                            Cached.State.isLoading := false;
                            Cached.State.error := Some e |};
         Cached.storage := Cached.storage w;
         Cached.trace := Cached.trace w ++ [Cached.GetItem Cached.cacheKey] |}.
Proof.
  intros Hf Hempty. unfold Cached.fetchData.
  destruct (try_block_failure net url (Cached.setIsLoading true w) Hf) as [e He].
  rewrite He. exists e. unfold Cached.catch_block, Cached.LocalStorage_getItem.
  simpl. rewrite Hempty. reflexivity.
Qed.

Lemma fetchData_success (net : Network) (url : string) (w : Cached.World)
    (r : Response.t) (text : json) :
  net url = Responded r -> Response.ok r = true -> Response.body r = Some text ->
  Cached.fetchData net url w
  = {| Cached.state := {| Cached.State.weather := JSON_parse text;
                          Cached.State.isStale := false;
                          Cached.State.isLoading := false;
                          Cached.State.error := None |};
       Cached.storage :=
         <[Cached.cacheKey := JSON_stringify (JSON_parse text)]> (Cached.storage w);
       Cached.trace :=
         Cached.trace w
         ++ [Cached.SetItem Cached.cacheKey (JSON_stringify (JSON_parse text))] |}.
Proof.
  intros Hnet Hok Hbody. unfold Cached.fetchData.
  rewrite (try_block_success net url _ r text Hnet Hok Hbody). reflexivity.
Qed.

(** A value that fits the interface is an object with an [hourly]
    object, hence passes the two truthiness guards of the render. *)
Lemma decode_truthy (v : value) (data : WeatherResponse.t) :
  WeatherResponse.decode v = Some data ->
  truthy v = true /\ truthy_opt (prop "hourly" v) = true.
Proof.
  unfold WeatherResponse.decode. intros Hd.
  destruct v as [| | | | |props]; try discriminate. split; [reflexivity|].
  simpl in *.
  destruct (get_prop "hourly" props) as [h|] eqn:Eh.
  - destruct h; try reflexivity; exfalso; simplify_option_eq.
  - exfalso. simplify_option_eq.
Qed.

Lemma computeWindow_Normal_inv `{Host} (timezoneId : string) (now : Z) (w : Window) :
  computeWindow timezoneId now = Normal w ->
  exists offset, zoneOffset timezoneId now = Some offset.
Proof.
  destruct (zoneOffset timezoneId now) as [offset|] eqn:Hz; [eauto|].
  rewrite (computeWindow_invalid _ _ Hz). discriminate.
Qed.

Lemma formattedDate_valid `{Host} (timezoneId : string) (now offset : Z) :
  zoneOffset timezoneId now = Some offset ->
  formattedDate timezoneId now = Normal (format_en_US (local_fields offset now)).
Proof. intros Hz. unfold formattedDate, zoned_fields. rewrite Hz. reflexivity. Qed.

(** The render of a state whose [weather] fits the interface. *)
Lemma WeatherDisplay_report `{Host} (props : Props.t) (now : Z) (st : Cached.State.t)
    (w : Window) (data : WeatherResponse.t) :
  computeWindow (Props.timezoneId props) now = Normal w ->
  WeatherResponse.decode (Cached.State.weather st) = Some data ->
  exists date,
    formattedDate (Props.timezoneId props) now = Normal date
    /\ Cached.WeatherDisplay props now st
       = Normal {| Detail.isLoading := false;
                   Detail.markdown :=
                     Some (Cached.markdown props w data (Cached.State.isStale st)
                             (chartUrlOf (Cached.chartConfig props data date)));
                   Detail.actions :=
                     chartActions (chartUrlOf (Cached.chartConfig props data date)) |}.
Proof.
  intros Hw Hd. destruct (decode_truthy _ _ Hd) as [Ht Hh].
  destruct (computeWindow_Normal_inv _ _ _ Hw) as [offset Hz].
  exists (format_en_US (local_fields offset now)).
  split; [apply formattedDate_valid, Hz|].
  unfold Cached.WeatherDisplay. rewrite Hw. simpl.
  rewrite Ht, Hh, Hd, (formattedDate_valid _ _ _ Hz). simpl.
  rewrite !andb_false_r. reflexivity.
Qed.

(* ================================================================== *)
(** * The stale-cache fallback *)
(* ================================================================== *)






(** C5, as the claim states it, fails: an ok response carrying the
    instantaneous shape (a [current] object, no [hourly]) is not treated
    as a failed fetch by the windowed fetcher.  No error is raised, the
    cache is not consulted, the forecast that was in the cache is replaced
    by this body, and the panel stays on the loading indicator. *)
Lemma other_shape_is_not_rejected :
  let net := always (Responded (okResponse currentText)) in
  let stored : gmap string json := {[ Cached.cacheKey := forecastText mildTemps ]} in
  let w0 := {| Cached.state := Cached.initialState; Cached.storage := stored;
               Cached.trace := [] |} in
  let world := Cached.fetchData net sampleUrl w0 in
  prop "hourly" (JSON_parse currentText) = None
  /\ ~ is_Some (Cached.try_block net sampleUrl w0).2
  /\ Cached.State.error (Cached.state world) = None
  /\ Cached.State.weather (Cached.state world) = JSON_parse currentText
  /\ Cached.storage world !! Cached.cacheKey = Some currentText
  /\ Cached.trace world = [Cached.SetItem Cached.cacheKey currentText]
  /\ @Cached.runWeatherDisplay sampleHost tokyoProps afternoon net stored
     = (Normal loadingDetail, Cached.storage world,
        [Cached.SetItem Cached.cacheKey currentText]).
Proof.
  cbv zeta. split; [reflexivity|]. split; [intros [e He]; discriminate|].
  repeat split.
Qed.

(** C5, amended: the windowed fetcher accepts every ok response whose
    body decodes, whatever its shape: the decoded value becomes the
    forecast, is written to the cache, and no error is recorded; if it has
    no truthy [hourly] the panel shows the loading indicator instead of a
    report.  The failure path is taken exactly when the fetch is rejected,
    the status is not ok or the body does not decode.  The instantaneous
    fetcher and [useFetch]'s default likewise return the decoded value
    unchecked. *)
Theorem response_shape_is_not_checked `{Host} (net : Network) (url : string)
    (w0 : Cached.World) (r : Response.t) (text : json) :
  net url = Responded r -> Response.ok r = true -> Response.body r = Some text ->
  let data := JSON_parse text in
  let world := Cached.fetchData net url w0 in
  Cached.state world
  = {| Cached.State.weather := data; Cached.State.isStale := false;
       Cached.State.isLoading := false; Cached.State.error := None |}
  /\ Cached.storage world = <[Cached.cacheKey := JSON_stringify data]> (Cached.storage w0)
  /\ Cached.trace world
     = Cached.trace w0 ++ [Cached.SetItem Cached.cacheKey (JSON_stringify data)]
  /\ (truthy_opt (prop "hourly" data) = false ->
      forall (props : Props.t) (now : Z) (win : Window),
        computeWindow (Props.timezoneId props) now = Normal win ->
        Cached.WeatherDisplay props now (Cached.state world) = Normal loadingDetail)
  /\ (forall (net' : Network) (url' : string) (w : Cached.World),
        is_Some (Cached.try_block net' url' w).2 <-> fetchFails (net' url') = true)
  /\ Tokyo.parseResponse r = Normal data
  /\ defaultParseResponse r = Normal data.
Proof.
  intros Hnet Hok Hbody data world. subst world.
  rewrite (fetchData_success net url w0 r text Hnet Hok Hbody). fold data.
  cbn [Cached.state Cached.storage Cached.trace].
  repeat (split; [reflexivity|]).
  split.
  { intros Hshape props now win Hwin. unfold Cached.WeatherDisplay.
    rewrite Hwin. simpl. rewrite Hshape, orb_true_r.
    destruct (truthy data); reflexivity. }
  split; [intros; apply try_block_throws_iff|].
  unfold Tokyo.parseResponse, defaultParseResponse. rewrite Hok, Hbody. split; reflexivity.
Qed.

Lemma response_shape_is_not_checked_witness :
  let net := always (Responded (okResponse currentText)) in
  let w0 := {| Cached.state := Cached.initialState; Cached.storage := ∅;
               Cached.trace := [] |} in
  net sampleUrl = Responded (okResponse currentText)
  /\ Cached.state (Cached.fetchData net sampleUrl w0)
     = {| Cached.State.weather := JSON_parse currentText; Cached.State.isStale := false;
          Cached.State.isLoading := false; Cached.State.error := None |}.
Proof.
  intros net w0. split; [reflexivity|].
  apply (@response_shape_is_not_checked sampleHost net sampleUrl w0 (okResponse currentText)
           currentText); reflexivity.
Defined.

(** The workflow around the slot: a fetch that succeeds, then one that
    fails, leaves the first fetch's forecast on display, flagged stale. *)
Lemma fallback_after_success (net1 net2 : Network) (url1 url2 : string)
    (w : Cached.World) (r : Response.t) (text : json) :
  net1 url1 = Responded r -> Response.ok r = true -> Response.body r = Some text ->
  fetchFails (net2 url2) = true ->
  let world := Cached.fetchData net2 url2 (Cached.fetchData net1 url1 w) in
  Cached.State.weather (Cached.state world) = JSON_parse text
  /\ Cached.State.isStale (Cached.state world) = true.
Proof.
  intros Hnet Hok Hbody Hfail world. subst world.
  rewrite (fetchData_success net1 url1 w r text Hnet Hok Hbody).
  edestruct fetchData_failure_cached as [e He]; [exact Hfail| |rewrite He].
  - cbn [Cached.storage]. apply lookup_insert_eq.
  - cbn. rewrite JSON_round_trip. split; reflexivity.
Qed.

(* ================================================================== *)
(** * Location failures *)
(* ================================================================== *)

Lemma Cached_Command_unavailable (location : UseFetch.t) :
  UseFetch.isLoading location = false -> locationUnavailable location = true ->
  Cached.Command location = Normal (Panel locationErrorDetail).
Proof.
  unfold locationUnavailable, Cached.Command. intros -> ->. reflexivity.
Qed.

Lemma Plain_Command_unavailable (location : UseFetch.t) :
  UseFetch.isLoading location = false -> locationUnavailable location = true ->
  Plain.Command location = Normal (Panel locationErrorDetail).
Proof.
  unfold locationUnavailable, Plain.Command. intros -> ->. reflexivity.
Qed.

Lemma settled_transportFailure (outcome : FetchOutcome) :
  transportFailure outcome = true ->
  UseFetch.isLoading (settled defaultParseResponse outcome) = false
  /\ locationUnavailable (settled defaultParseResponse outcome) = true.
Proof.
  destruct outcome as [e|r]; simpl; [intros _; split; reflexivity|].
  unfold settled, defaultParseResponse. intros ->. split; reflexivity.
Qed.

Lemma settled_semanticFailure (outcome : FetchOutcome) :
  semanticFailure outcome = true ->
  UseFetch.isLoading (settled defaultParseResponse outcome) = false
  /\ locationUnavailable (settled defaultParseResponse outcome) = true.
Proof.
  destruct outcome as [e|r]; simpl; [discriminate|].
  unfold settled, defaultParseResponse, locationUnavailable.
  destruct (Response.ok r); simpl; [|discriminate].
  destruct (Response.body r) as [text|]; [|discriminate].
  simpl. intros ->. split; [reflexivity | apply orb_true_r].
Qed.

(** C6: a location lookup that fails in transport and one that comes back
    ok but without a true success flag end in the same panel, in both
    temperature commands. *)
Theorem location_failures_coincide (broken refused : FetchOutcome) :
  transportFailure broken = true ->
  semanticFailure refused = true ->
  Cached.Command (settled defaultParseResponse broken) = Normal (Panel locationErrorDetail)
  /\ Cached.Command (settled defaultParseResponse refused)
     = Normal (Panel locationErrorDetail)
  /\ Plain.Command (settled defaultParseResponse broken) = Normal (Panel locationErrorDetail)
  /\ Plain.Command (settled defaultParseResponse refused)
     = Normal (Panel locationErrorDetail)
  /\ exists r, refused = Responded r /\ Response.ok r = true.
Proof.
  intros Hb Hr.
  destruct (settled_transportFailure broken Hb) as [Hb1 Hb2].
  destruct (settled_semanticFailure refused Hr) as [Hr1 Hr2].
  repeat split;
    try (apply Cached_Command_unavailable; assumption);
    try (apply Plain_Command_unavailable; assumption).
  destruct refused as [e|r]; [discriminate|]. exists r. split; [reflexivity|].
  simpl in Hr. apply andb_true_iff in Hr as [Hok _]. exact Hok.
Qed.

Lemma location_failures_coincide_witness :
  transportFailure (Responded unavailable) = true
  /\ semanticFailure (Responded (okResponse refusedText)) = true
  /\ Cached.Command (settled defaultParseResponse (Responded unavailable))
     = Cached.Command (settled defaultParseResponse (Responded (okResponse refusedText))).
Proof.
  split; [reflexivity|]. split; [reflexivity|].
  destruct (location_failures_coincide (Responded unavailable)
              (Responded (okResponse refusedText)) eq_refl eq_refl) as (H1 & H2 & _).
  rewrite H1, H2. reflexivity.
Defined.

(** C7: when the location is unavailable the run ends at once in the
    location error panel; [LocalStorage] is neither read nor written and
    holds what it held. *)
Theorem location_failure_leaves_cache_alone `{Host} (location : UseFetch.t) (now : Z)
    (net : Network) (stored : gmap string json) :
  UseFetch.isLoading location = false ->
  locationUnavailable location = true ->
  Cached.runCommand location now net stored = (Normal locationErrorDetail, stored, [])
  /\ Detail.isLoading locationErrorDetail = false
  /\ Detail.markdown locationErrorDetail = Some locationErrorMarkdown.
Proof.
  intros Hsettled Hun. unfold Cached.runCommand.
  rewrite (Cached_Command_unavailable location Hsettled Hun). repeat split.
Qed.

Lemma location_failure_leaves_cache_alone_witness :
  let location := settled defaultParseResponse (Responded (okResponse refusedText)) in
  let stored : gmap string json := {[ Cached.cacheKey := forecastText mildTemps ]} in
  UseFetch.isLoading location = false
  /\ locationUnavailable location = true
  /\ @Cached.runCommand sampleHost location afternoon
       (always (Responded (okResponse (forecastText extremeTemps)))) stored
     = (Normal locationErrorDetail, stored, []).
Proof.
  intros location stored. split; [reflexivity|]. split; [reflexivity|].
  apply (@location_failure_leaves_cache_alone sampleHost location afternoon
           (always (Responded (okResponse (forecastText extremeTemps)))) stored);
    reflexivity.
Defined.

(* ================================================================== *)
(** * Rendering depends on the clock only through the window *)
(* ================================================================== *)

Lemma length_append (a b : string) :
  String.length (a +:+ b) = (String.length a + String.length b)%nat.
Proof. induction a as [|c a IH]; simpl; [reflexivity | rewrite IH; reflexivity]. Qed.

Lemma append_inj_length (a a' b b' : string) :
  String.length a = String.length a' -> a +:+ b = a' +:+ b' -> a = a' /\ b = b'.
Proof.
  revert a'. induction a as [|c a IH]; intros [|c' a']; simpl; try discriminate.
  - intros _ Heq. split; [reflexivity | exact Heq].
  - intros Hlen Heq. injection Hlen as Hlen. injection Heq as -> Heq.
    destruct (IH a' Hlen Heq) as [-> ->]. split; reflexivity.
Qed.

Lemma digit_inj (a b : Z) : 0 <= a < 10 -> 0 <= b < 10 -> digit a = digit b -> a = b.
Proof.
  intros Ha Hb Heq. unfold digit in Heq.
  apply (f_equal nat_of_ascii) in Heq.
  rewrite !nat_ascii_embedding in Heq by lia. lia.
Qed.

Lemma two_digit_inj (a b : Z) :
  0 <= a < 100 -> 0 <= b < 100 -> two_digit a = two_digit b -> a = b.
Proof.
  intros Ha Hb Heq. unfold two_digit in Heq. injection Heq as Htens Hunits.
  apply digit_inj in Htens; [|Z.div_mod_to_equations; lia ..].
  apply digit_inj in Hunits; [|Z.div_mod_to_equations; lia ..].
  rewrite (Z.div_mod a 10), (Z.div_mod b 10) by lia. congruence.
Qed.

(** The [YYYY-MM-DD] text determines the calendar date. *)
Lemma format_en_CA_inj (f g : LocalFields) :
  0 <= month f < 100 -> 0 <= day f < 100 ->
  0 <= month g < 100 -> 0 <= day g < 100 ->
  format_en_CA f = format_en_CA g ->
  year f = year g /\ month f = month g /\ day f = day g.
Proof.
  intros Hmf Hdf Hmg Hdg Heq. unfold format_en_CA in Heq.
  assert (Hlen : String.length (pretty (year f)) = String.length (pretty (year g))).
  { apply (f_equal String.length) in Heq. rewrite !length_append in Heq.
    simpl in Heq. lia. }
  apply append_inj_length in Heq as [Hy Heq]; [|exact Hlen].
  apply (inj pretty) in Hy.
  apply (append_inj_length "-") in Heq as [_ Heq]; [|reflexivity].
  apply append_inj_length in Heq as [Hm Heq]; [|reflexivity].
  apply (append_inj_length "-") in Heq as [_ Hd]; [|reflexivity].
  apply two_digit_inj in Hm; [|assumption ..].
  apply two_digit_inj in Hd; [|assumption ..].
  auto.
Qed.

Lemma local_fields_range (offset now : Z) :
  0 <= month (local_fields offset now) < 100 /\ 0 <= day (local_fields offset now) < 100.
Proof.
  pose proof (civil_from_days_range ((now + offset * 60000) / 86400000)) as Hr.
  rewrite <- local_fields_date in Hr. lia.
Qed.

(** Two instants with the same window have the same formatted date. *)
Lemma window_determines_formattedDate `{Host} (timezoneId : string) (now1 now2 : Z)
    (w : Window) :
  computeWindow timezoneId now1 = Normal w ->
  computeWindow timezoneId now2 = Normal w ->
  formattedDate timezoneId now1 = formattedDate timezoneId now2.
Proof.
  intros H1 H2.
  destruct (computeWindow_Normal_inv _ _ _ H1) as [o1 Hz1].
  destruct (computeWindow_Normal_inv _ _ _ H2) as [o2 Hz2].
  rewrite (computeWindow_valid _ _ _ Hz1) in H1.
  rewrite (computeWindow_valid _ _ _ Hz2) in H2.
  rewrite (formattedDate_valid _ _ _ Hz1), (formattedDate_valid _ _ _ Hz2).
  injection H1 as <-. injection H2 as Hstart _.
  assert (Hdate : format_en_CA (local_fields o2 now2) = format_en_CA (local_fields o1 now1)).
  { assert (Hlen : String.length (format_en_CA (local_fields o2 now2))
                   = String.length (format_en_CA (local_fields o1 now1))).
    { apply (f_equal String.length) in Hstart. rewrite !length_append in Hstart. lia. }
    apply append_inj_length in Hstart as [Hd _]; [exact Hd | exact Hlen]. }
  destruct (local_fields_range o1 now1) as [Hm1 Hd1].
  destruct (local_fields_range o2 now2) as [Hm2 Hd2].
  destruct (format_en_CA_inj _ _ Hm2 Hd2 Hm1 Hd1 Hdate) as (Hy & Hm & Hd).
  unfold format_en_US. rewrite Hy, Hm, Hd. reflexivity.
Qed.

(** The render of the cached command is a function of the props, the
    window and the state: two renders at instants with the same window
    return the same panel, text and chart reference included. *)
Lemma Cached_render_deterministic `{Host} (props : Props.t) (now1 now2 : Z)
    (st : Cached.State.t) (w : Window) :
  computeWindow (Props.timezoneId props) now1 = Normal w ->
  computeWindow (Props.timezoneId props) now2 = Normal w ->
  Cached.WeatherDisplay props now1 st = Cached.WeatherDisplay props now2 st.
Proof.
  intros H1 H2. unfold Cached.WeatherDisplay.
  rewrite H1, H2, (window_determines_formattedDate _ _ _ _ H1 H2). reflexivity.
Qed.

(** The same for the plain command: the panel and the console line are
    the same at both instants. *)
Lemma Plain_render_deterministic `{Host} (props : Props.t) (now1 now2 : Z)
    (fetched : UseFetch.t) (w : Window) :
  computeWindow (Props.timezoneId props) now1 = Normal w ->
  computeWindow (Props.timezoneId props) now2 = Normal w ->
  Plain.WeatherDisplay props now1 fetched = Plain.WeatherDisplay props now2 fetched.
Proof.
  intros H1 H2. unfold Plain.WeatherDisplay.
  rewrite H1, H2, (window_determines_formattedDate _ _ _ _ H1 H2). reflexivity.
Qed.

(** The render of a state that is not stale and whose [weather] fits the
    interface: the text is the report from its title on, with no banner
    before it. *)
Lemma Cached_render_reports_fresh_data `{Host} (props : Props.t) (now : Z) (w : Window)
    (weather : value) (data : WeatherResponse.t) :
  computeWindow (Props.timezoneId props) now = Normal w ->
  WeatherResponse.decode weather = Some data ->
  exists date chartUrl,
    formattedDate (Props.timezoneId props) now = Normal date
    /\ chartUrl = chartUrlOf (Cached.chartConfig props data date)
    /\ Cached.WeatherDisplay props now
         {| Cached.State.weather := weather; Cached.State.isStale := false;
            Cached.State.isLoading := false; Cached.State.error := None |}
       = Normal {| Detail.isLoading := false;
                   Detail.markdown := Some (reportBody props w data chartUrl);
                   Detail.actions := chartActions chartUrl |}.
Proof.
  intros Hw Hd.
  destruct (WeatherDisplay_report props now
              {| Cached.State.weather := weather; Cached.State.isStale := false;
                 Cached.State.isLoading := false; Cached.State.error := None |}
              w data Hw Hd) as (date & Hdate & Hrender).
  exists date, (chartUrlOf (Cached.chartConfig props data date)).
  split; [exact Hdate|]. split; [reflexivity|]. exact Hrender.
Qed.

(** C9 on [src/temperature.tsx]: a render that reaches the report writes
    a line to the console.  Shown on the Tokyo forecast of the examples:
    the render returns its panel and has logged the chart title. *)
Theorem plain_render_writes_to_console :
  exists view : Detail.t,
    @Plain.WeatherDisplay sampleHost tokyoProps afternoon
      (settled defaultParseResponse (Responded (okResponse (forecastText mildTemps))))
    = Normal {| Plain.view := view;
                Plain.console := [ [ "Chart title:"; "Tokyo, Japan - October 30, 2025" ] ] |}
    /\ Plain.console {| Plain.view := view;
                        Plain.console :=
                          [ [ "Chart title:"; "Tokyo, Japan - October 30, 2025" ] ] |}
       <> [].
Proof. eexists. split; [vm_compute; reflexivity | discriminate]. Qed.

(* ================================================================== *)
(** * Further properties of the axis bounds *)
(* ================================================================== *)

(** X1: the bounds are whole numbers that enclose every sample and the
    default range from 0 to 40, so no sample is drawn outside the axis. *)
Theorem axis_bounds_enclose_samples (temps : list Q) :
  temps <> [] ->
  exists lo hi : Z,
    yAxisMin (map Fin temps) = num_of_Z lo
    /\ yAxisMax (map Fin temps) = num_of_Z hi
    /\ lo <= 0 /\ 40 <= hi
    /\ Forall (fun x => (inject_Z lo <= x)%Q /\ (x <= inject_Z hi)%Q) temps.
Proof.
  intros Hne.
  destruct (minTemp_least temps Hne) as (m & Hm & _ & Hleast).
  destruct (maxTemp_greatest temps Hne) as (M & HM & _ & Hgreatest).
  destruct (yAxisMin_Fin _ _ Hm) as [Hmin_neg Hmin_pos].
  destruct (yAxisMax_Fin _ _ HM) as [Hmax_hot Hmax_mild].
  assert (Hlo : exists lo, yAxisMin (map Fin temps) = num_of_Z lo /\ lo <= 0
                           /\ (inject_Z lo <= m)%Q).
  { destruct (Qlt_le_dec m 0) as [Hneg|Hpos].
    - exists (Qfloor m). split; [auto|]. split; [|apply Qfloor_le].
      apply Z.lt_le_incl. rewrite Zlt_Qlt.
      apply Qle_lt_trans with m; [apply Qfloor_le | exact Hneg].
    - exists 0. split; [apply Hmin_pos, Qle_not_lt, Hpos|]. split; [lia | exact Hpos]. }
  assert (Hhi : exists hi, yAxisMax (map Fin temps) = num_of_Z hi /\ 40 <= hi
                           /\ (M <= inject_Z hi)%Q).
  { destruct (Qlt_le_dec 40 M) as [Hhot|Hmild].
    - exists (Qceiling M + 2). split; [auto|].
      assert (Hc : (M <= inject_Z (Qceiling M))%Q) by apply Qle_ceiling.
      assert (H40 : 40 < Qceiling M).
      { rewrite Zlt_Qlt. apply Qlt_le_trans with M; assumption. }
      split; [lia|]. apply Qle_trans with (inject_Z (Qceiling M)); [exact Hc|].
      rewrite <- Zle_Qle. lia.
    - exists 40. split; [apply Hmax_mild, Qle_not_lt, Hmild|]. split; [lia | exact Hmild]. }
  destruct Hlo as (lo & Hlo & Hlo0 & Hlom). destruct Hhi as (hi & Hhi & Hhi40 & HhiM).
  exists lo, hi. repeat (split; [assumption|]).
  apply List.Forall_forall. intros x Hx.
  rewrite List.Forall_forall in Hleast, Hgreatest. split.
  - apply Qle_trans with m; [exact Hlom | apply Hleast, Hx].
  - apply Qle_trans with M; [apply Hgreatest, Hx | exact HhiM].
Qed.

Lemma axis_bounds_enclose_samples_witness :
  extremeTemps <> []
  /\ exists lo hi : Z,
       yAxisMin (map Fin extremeTemps) = num_of_Z lo
       /\ yAxisMax (map Fin extremeTemps) = num_of_Z hi
       /\ lo <= 0 /\ 40 <= hi.
Proof.
  split; [discriminate|].
  destruct (axis_bounds_enclose_samples extremeTemps) as (lo & hi & H1 & H2 & H3 & H4 & _);
    [discriminate|].
  exists lo, hi. repeat split; assumption.
Defined.

(* ================================================================== *)
(** * What [fetchData] does to its surroundings *)
(* ================================================================== *)

Lemma fetch_succeeds_inv (outcome : FetchOutcome) :
  fetchFails outcome = false ->
  exists r text, outcome = Responded r /\ Response.ok r = true
                 /\ Response.body r = Some text.
Proof.
  destruct outcome as [e|r]; simpl; [discriminate|].
  intros Hf. apply orb_false_iff in Hf as [Hok Hbody].
  apply negb_false_iff in Hok. apply bool_decide_eq_false in Hbody.
  destruct (Response.body r) as [text|] eqn:E; [|congruence].
  exists r, text. auto.
Qed.

(** X2: whatever the fetch settles to, [fetchData] ends with the loading
    flag off, makes exactly one [LocalStorage] call, on the cache key, and
    leaves every other key alone; a failed fetch changes nothing in the
    storage, a successful one leaves the slot filled. *)
Theorem fetchData_footprint (net : Network) (url : string) (w : Cached.World) :
  let w' := Cached.fetchData net url w in
  Cached.State.isLoading (Cached.state w') = false
  /\ (exists op, Cached.trace w' = Cached.trace w ++ [op]
                 /\ (op = Cached.GetItem Cached.cacheKey
                     \/ exists text, op = Cached.SetItem Cached.cacheKey text))
  /\ (forall key, key <> Cached.cacheKey ->
                  Cached.storage w' !! key = Cached.storage w !! key)
  /\ (fetchFails (net url) = true -> Cached.storage w' = Cached.storage w)
  /\ (fetchFails (net url) = false -> is_Some (Cached.storage w' !! Cached.cacheKey)).
Proof.
  intros w'. subst w'. destruct (fetchFails (net url)) eqn:Hf.
  - assert (Hcase : exists st,
               Cached.fetchData net url w
               = {| Cached.state := st; Cached.storage := Cached.storage w;
                    Cached.trace := Cached.trace w ++ [Cached.GetItem Cached.cacheKey] |}
               /\ Cached.State.isLoading st = false).
    { destruct (Cached.storage w !! Cached.cacheKey) as [text|] eqn:Hslot.
      - destruct (fetchData_failure_cached net url w text Hf Hslot) as [e He].
        rewrite He. eexists. split; reflexivity.
      - destruct (fetchData_failure_empty net url w Hf Hslot) as [e He].
        rewrite He. eexists. split; reflexivity. }
    destruct Hcase as (st & -> & Hl). cbn [Cached.state Cached.storage Cached.trace].
    split; [exact Hl|]. split; [eauto|]. split; [reflexivity|].
    split; [reflexivity | discriminate].
  - destruct (fetch_succeeds_inv _ Hf) as (r & text & Hnet & Hok & Hbody).
    rewrite (fetchData_success net url w r text Hnet Hok Hbody).
    cbn [Cached.state Cached.storage Cached.trace Cached.State.isLoading].
    split; [reflexivity|]. split; [eauto|].
    split; [intros key Hkey; apply lookup_insert_ne; congruence|].
    split; [discriminate|]. intros _. rewrite lookup_insert_eq. eauto.
Qed.

(* ================================================================== *)
(** * A mounted [WeatherDisplay] over any number of fetches *)
(* ================================================================== *)

Lemma refetches_snoc (requests : list (Network * string)) (net : Network) (url : string)
    (w : Cached.World) :
  refetches (requests ++ [(net, url)]) w = Cached.fetchData net url (refetches requests w).
Proof. unfold refetches. rewrite fold_left_app. reflexivity. Qed.

(** What holds after every run of the effect: with the slot empty nothing
    is shown, nothing is stale, the slot started empty and every fetch so
    far failed; with the slot filled, and at least one fetch made, the
    forecast in the cells is the one in the slot. *)
Lemma refetches_invariant (stored : gmap string json) (requests : list (Network * string)) :
  let w := refetches requests (mounted stored) in
  (Cached.storage w !! Cached.cacheKey = None ->
   Cached.State.weather (Cached.state w) = VNull
   /\ Cached.State.isStale (Cached.state w) = false
   /\ stored !! Cached.cacheKey = None
   /\ Forall (fun request => fetchFails (fst request (snd request)) = true) requests)
  /\ (forall text, Cached.storage w !! Cached.cacheKey = Some text -> requests <> [] ->
      Cached.State.weather (Cached.state w) = JSON_parse text).
Proof.
  induction requests as [|[net url] requests IH] using rev_ind.
  - simpl. split; [intros Hslot; repeat split; [exact Hslot | constructor]|].
    intros text _ Hne. congruence.
  - cbv zeta in *. rewrite refetches_snoc.
    set (w1 := refetches requests (mounted stored)) in *.
    destruct IH as [IHnone IHsome].
    destruct (fetchFails (net url)) eqn:Hf.
    + destruct (Cached.storage w1 !! Cached.cacheKey) as [text|] eqn:Hslot.
      * destruct (fetchData_failure_cached net url w1 text Hf Hslot) as [e He].
        rewrite He. cbn [Cached.state Cached.storage Cached.State.weather].
        rewrite Hslot. split; [discriminate|]. intros text' [= <-] _. reflexivity.
      * destruct (fetchData_failure_empty net url w1 Hf Hslot) as [e He].
        rewrite He. cbn [Cached.state Cached.storage Cached.State.weather
                           Cached.State.isStale].
        rewrite Hslot. split; [|discriminate]. intros _.
        destruct (IHnone eq_refl) as (Hw & Hs & Hstored & Hall).
        repeat split; try assumption.
        apply Forall_app. split; [exact Hall|]. constructor; [exact Hf | constructor].
    + destruct (fetch_succeeds_inv _ Hf) as (r & text & Hnet & Hok & Hbody).
      rewrite (fetchData_success net url w1 r text Hnet Hok Hbody).
      cbn [Cached.state Cached.storage Cached.State.weather]. rewrite lookup_insert_eq.
      split; [discriminate|]. intros text' [= <-] _. symmetry. apply JSON_round_trip.
Qed.

(** X3: from mount on and over any number of fetches, the forecast the
    component holds is the one in the cache slot; while the slot is empty
    it holds none and is not stale. *)
Theorem displayed_forecast_is_cached (stored : gmap string json)
    (requests : list (Network * string)) :
  requests <> [] ->
  let w := refetches requests (mounted stored) in
  match Cached.storage w !! Cached.cacheKey with
  | Some text => Cached.State.weather (Cached.state w) = JSON_parse text
  | None =>
      Cached.State.weather (Cached.state w) = VNull
      /\ Cached.State.isStale (Cached.state w) = false
      /\ Forall (fun request => fetchFails (fst request (snd request)) = true) requests
  end.
Proof.
  intros Hne w. destruct (refetches_invariant stored requests) as [Hnone Hsome].
  fold w in Hnone, Hsome.
  destruct (Cached.storage w !! Cached.cacheKey) as [text|] eqn:Hslot.
  - apply Hsome; [reflexivity | exact Hne].
  - destruct (Hnone eq_refl) as (Hw & Hs & _ & Hall). auto.
Qed.

Lemma displayed_forecast_is_cached_witness :
  let requests := [ (always (Responded (okResponse (forecastText mildTemps))), sampleUrl);
                    (always (Responded unavailable), sampleUrl) ] in
  requests <> []
  /\ Cached.State.weather (Cached.state (refetches requests (mounted ∅)))
     = JSON_parse (forecastText mildTemps).
Proof.
  intros requests. split; [discriminate|].
  pose proof (displayed_forecast_is_cached ∅ requests) as H.
  cbv zeta in H. specialize (H ltac:(discriminate)).
  exact H.
Defined.

(** X4: after every fetch of a mounted component the stale flag says
    exactly that this last fetch failed and the slot had a text to fall
    back on; a success always clears it. *)
Theorem stale_flag_tracks_last_fetch (stored : gmap string json)
    (requests : list (Network * string)) (net : Network) (url : string) :
  let w := refetches (requests ++ [(net, url)]) (mounted stored) in
  Cached.State.isStale (Cached.state w)
  = fetchFails (net url) && bool_decide (is_Some (Cached.storage w !! Cached.cacheKey)).
Proof.
  cbv zeta. rewrite refetches_snoc.
  set (w1 := refetches requests (mounted stored)).
  destruct (refetches_invariant stored requests) as [Hnone _]. fold w1 in Hnone.
  destruct (fetchFails (net url)) eqn:Hf.
  - destruct (Cached.storage w1 !! Cached.cacheKey) as [text|] eqn:Hslot.
    + destruct (fetchData_failure_cached net url w1 text Hf Hslot) as [e He].
      rewrite He. cbn [Cached.state Cached.storage Cached.State.isStale].
      rewrite Hslot. symmetry. apply andb_true_iff. split; [reflexivity|].
      apply bool_decide_eq_true. eauto.
    + destruct (fetchData_failure_empty net url w1 Hf Hslot) as [e He].
      rewrite He. cbn [Cached.state Cached.storage Cached.State.isStale].
      rewrite Hslot. destruct (Hnone eq_refl) as (_ & -> & _).
      symmetry. apply andb_false_iff. right. apply bool_decide_eq_false.
      intros [x Hx]. discriminate.
  - destruct (fetch_succeeds_inv _ Hf) as (r & text & Hnet & Hok & Hbody).
    rewrite (fetchData_success net url w1 r text Hnet Hok Hbody). reflexivity.
Qed.

(* ================================================================== *)
(** * Which panel a render shows *)
(* ================================================================== *)

(** The render once a fetch has settled ([isLoading] off), by cases on the
    forecast cell. *)
Lemma WeatherDisplay_settled `{Host} (props : Props.t) (now : Z) (win : Window)
    (weather : value) (isStale : bool) (error : option Error) :
  computeWindow (Props.timezoneId props) now = Normal win ->
  let st := {| Cached.State.weather := weather; Cached.State.isStale := isStale;
               Cached.State.isLoading := false; Cached.State.error := error |} in
  (truthy weather = false ->
   Cached.WeatherDisplay props now st
   = Normal (if bool_decide (is_Some error) then fetchErrorDetail else loadingDetail))
  /\ (truthy weather = true ->
      Cached.WeatherDisplay props now st <> Normal fetchErrorDetail).
Proof.
  intros Hwin st. unfold Cached.WeatherDisplay. rewrite Hwin. subst st. simpl. split.
  - intros ->. simpl. rewrite andb_true_r. destruct (bool_decide (is_Some error)); reflexivity.
  - intros ->. simpl. rewrite andb_false_r.
    destruct (truthy_opt (prop "hourly" weather)); simpl; [|discriminate].
    destruct (WeatherResponse.decode weather); [|discriminate].
    destruct (formattedDate (Props.timezoneId props) now); simpl; discriminate.
Qed.

(** X5: a [WeatherDisplay] run from mount ends in the error panel exactly
    when the fetch failed and the cache slot is empty or holds a text that
    parses to a falsy value ([null], [false], [0], the empty string). *)
Theorem error_panel_iff_nothing_to_show `{Host} (props : Props.t) (now : Z) (net : Network)
    (stored : gmap string json) (win : Window) :
  computeWindow (Props.timezoneId props) now = Normal win ->
  (Cached.runWeatherDisplay props now net stored).1.1 = Normal fetchErrorDetail
  <-> fetchFails (net (apiUrl props win)) = true
      /\ (forall text, stored !! Cached.cacheKey = Some text ->
                       truthy (JSON_parse text) = false).
Proof.
  intros Hwin. unfold Cached.runWeatherDisplay. rewrite Hwin. cbn [fst].
  set (w0 := {| Cached.state := Cached.initialState; Cached.storage := stored;
                Cached.trace := [] |}).
  destruct (fetchFails (net (apiUrl props win))) eqn:Hf.
  - destruct (stored !! Cached.cacheKey) as [text|] eqn:Hslot.
    + destruct (fetchData_failure_cached net (apiUrl props win) w0 text Hf Hslot)
        as [e He].
      rewrite He. cbn [Cached.state].
      destruct (WeatherDisplay_settled props now win (JSON_parse text) true (Some e) Hwin)
        as [Hfalsy Htruthy].
      destruct (truthy (JSON_parse text)) eqn:Ht.
      * split; [intros Hv; exfalso; exact (Htruthy eq_refl Hv)|].
        intros [_ Hall]. specialize (Hall text eq_refl). congruence.
      * split; [intros _; split; [reflexivity | intros t [= <-]; exact Ht]|].
        intros _. rewrite (Hfalsy eq_refl). reflexivity.
    + destruct (fetchData_failure_empty net (apiUrl props win) w0 Hf Hslot) as [e He].
      rewrite He. cbn [Cached.state w0 Cached.initialState Cached.State.weather
                         Cached.State.isStale].
      destruct (WeatherDisplay_settled props now win VNull false (Some e) Hwin)
        as [Hfalsy _].
      rewrite (Hfalsy eq_refl). split; [|reflexivity].
      intros _. split; [reflexivity | discriminate].
  - destruct (fetch_succeeds_inv _ Hf) as (r & text & Hnet & Hok & Hbody).
    rewrite (fetchData_success net (apiUrl props win) w0 r text Hnet Hok Hbody).
    cbn [Cached.state].
    destruct (WeatherDisplay_settled props now win (JSON_parse text) false None Hwin)
      as [Hfalsy Htruthy].
    split; [|intros [Hc _]; discriminate].
    intros Hv. exfalso. destruct (truthy (JSON_parse text)).
    + exact (Htruthy eq_refl Hv).
    + rewrite (Hfalsy eq_refl) in Hv. discriminate.
Qed.

Lemma error_panel_iff_nothing_to_show_witness :
  let stored : gmap string json := {[ Cached.cacheKey := JNull ]} in
  @computeWindow sampleHost "Asia/Tokyo" afternoon = Normal sampleWindow
  /\ (@Cached.runWeatherDisplay sampleHost tokyoProps afternoon
        (always (Responded unavailable)) stored).1.1 = Normal fetchErrorDetail.
Proof.
  intros stored. split; [reflexivity|].
  apply (@error_panel_iff_nothing_to_show sampleHost tokyoProps afternoon
           (always (Responded unavailable)) stored sampleWindow eq_refl).
  split; [reflexivity|]. intros text Hslot.
  assert (Htext : text = JNull).
  { unfold stored in Hslot. rewrite lookup_singleton_eq in Hslot. congruence. }
  rewrite Htext. reflexivity.
Defined.

(** X6: as long as the forecast cell holds a forecast, the render shows
    the report, whatever the loading flag and the error cell say: a
    refetch in progress or a failed refresh never replaces the report by
    the loading indicator or the error panel. *)
Theorem report_survives_refetch `{Host} (props : Props.t) (now : Z) (win : Window)
    (st : Cached.State.t) (data : WeatherResponse.t) :
  computeWindow (Props.timezoneId props) now = Normal win ->
  WeatherResponse.decode (Cached.State.weather st) = Some data ->
  exists d : Detail.t,
    Cached.WeatherDisplay props now st = Normal d
    /\ (forall (loading : bool) (error : option Error),
          Cached.WeatherDisplay props now
            {| Cached.State.weather := Cached.State.weather st;
               Cached.State.isStale := Cached.State.isStale st;
               Cached.State.isLoading := loading; Cached.State.error := error |}
          = Normal d)
    /\ Detail.isLoading d = false
    /\ d <> fetchErrorDetail /\ d <> loadingDetail.
Proof.
  intros Hwin Hdata.
  destruct (WeatherDisplay_report props now st win data Hwin Hdata) as (date & Hdate & Hr).
  eexists. split; [exact Hr|]. split.
  - intros loading error.
    destruct (WeatherDisplay_report props now
                {| Cached.State.weather := Cached.State.weather st;
                   Cached.State.isStale := Cached.State.isStale st;
                   Cached.State.isLoading := loading; Cached.State.error := error |}
                win data Hwin Hdata) as (date' & Hdate' & Hr').
    rewrite Hdate in Hdate'. injection Hdate' as <-. exact Hr'.
  - split; [reflexivity|]. split; discriminate.
Qed.

Lemma report_survives_refetch_witness :
  let st := {| Cached.State.weather := JSON_parse (forecastText mildTemps);
               Cached.State.isStale := false; Cached.State.isLoading := true;
               Cached.State.error := Some (MkError "fetch failed") |} in
  @computeWindow sampleHost "Asia/Tokyo" afternoon = Normal sampleWindow
  /\ exists d : Detail.t,
       @Cached.WeatherDisplay sampleHost tokyoProps afternoon st = Normal d
       /\ Detail.isLoading d = false.
Proof.
  intros st. split; [reflexivity|].
  destruct (@report_survives_refetch sampleHost tokyoProps afternoon sampleWindow st
              (forecastData mildTemps) eq_refl eq_refl) as (d & Hd & _ & Hl & _).
  exists d. split; assumption.
Defined.

(** X7: with a time zone [Intl] does not know, every render throws the
    RangeError before anything else happens: no request is made and
    [LocalStorage] is neither read nor written; the plain command throws
    alike. *)
Theorem unknown_zone_throws `{Host} (props : Props.t) (now : Z) (net : Network)
    (stored : gmap string json) (st : Cached.State.t) (fetched : UseFetch.t) :
  zoneOffset (Props.timezoneId props) now = None ->
  let e := MkError ("Invalid time zone specified: " +:+ Props.timezoneId props) in
  Cached.WeatherDisplay props now st = Throw e
  /\ Cached.runWeatherDisplay props now net stored = (Throw e, stored, [])
  /\ Plain.WeatherDisplay props now fetched = Throw e.
Proof.
  intros Hz e. pose proof (computeWindow_invalid _ _ Hz) as Hw.
  unfold Cached.WeatherDisplay, Cached.runWeatherDisplay, Plain.WeatherDisplay.
  rewrite Hw. repeat split.
Qed.

Lemma unknown_zone_throws_witness :
  let props := {| Props.latitude := Fin 0; Props.longitude := Fin 0;
                  Props.city := "Olympus"; Props.country := "Mars";
                  Props.timezoneId := "Mars/Olympus" |} in
  @zoneOffset sampleHost "Mars/Olympus" afternoon = None
  /\ @Cached.runWeatherDisplay sampleHost props afternoon
       (always (Responded (okResponse (forecastText mildTemps)))) ∅
     = (Throw (MkError "Invalid time zone specified: Mars/Olympus"), ∅, []).
Proof.
  intros props. split; [reflexivity|].
  apply (@unknown_zone_throws sampleHost props afternoon
           (always (Responded (okResponse (forecastText mildTemps)))) ∅
           Cached.initialState
           {| UseFetch.data := None; UseFetch.isLoading := true; UseFetch.error := None |}
           eq_refl).
Defined.

(* ================================================================== *)
(** * The request and the chart reference *)
(* ================================================================== *)

Lemma local_fields_same_minute (offset now1 now2 : Z) :
  now1 / 60000 = now2 / 60000 -> local_fields offset now1 = local_fields offset now2.
Proof.
  intros Hminute.
  assert (Hm : (now1 + offset * 60000) / 60000 = (now2 + offset * 60000) / 60000)
    by (rewrite !Z.div_add by lia; lia).
  unfold local_fields.
  set (a := now1 + offset * 60000) in *. set (b := now2 + offset * 60000) in *.
  clearbody a b.
  assert (Hday : a / 86400000 = b / 86400000).
  { replace 86400000 with (60000 * 1440) by lia. rewrite <- !Z.div_div by lia. congruence. }
  assert (Hclock : (a mod 86400000) / 60000 = (b mod 86400000) / 60000)
    by (Z.div_mod_to_equations; lia).
  assert (Hhour : (a mod 86400000) / 3600000 = (b mod 86400000) / 3600000).
  { replace 3600000 with (60000 * 60) by lia. rewrite <- !Z.div_div by lia. congruence. }
  rewrite Hday, Hclock, Hhour. reflexivity.
Qed.

(** X8: two renders within the same clock minute, in a zone whose offset
    is the same at both instants, compute the same window and therefore
    the same request URL, so the effect keyed on [apiUrl] is not run
    again. *)
Theorem same_minute_same_request `{Host} (props : Props.t) (now1 now2 : Z) :
  now1 / 60000 = now2 / 60000 ->
  zoneOffset (Props.timezoneId props) now1 = zoneOffset (Props.timezoneId props) now2 ->
  computeWindow (Props.timezoneId props) now1 = computeWindow (Props.timezoneId props) now2
  /\ forall w1 w2,
       computeWindow (Props.timezoneId props) now1 = Normal w1 ->
       computeWindow (Props.timezoneId props) now2 = Normal w2 ->
       apiUrl props w1 = apiUrl props w2.
Proof.
  intros Hminute Hzone.
  assert (Hw : computeWindow (Props.timezoneId props) now1
               = computeWindow (Props.timezoneId props) now2).
  { destruct (zoneOffset (Props.timezoneId props) now2) as [offset|] eqn:Hz2.
    - rewrite (computeWindow_valid _ _ _ Hzone), (computeWindow_valid _ _ _ Hz2).
      rewrite (local_fields_same_minute offset now1 now2 Hminute). reflexivity.
    - rewrite (computeWindow_invalid _ _ Hzone), (computeWindow_invalid _ _ Hz2).
      reflexivity. }
  split; [exact Hw|]. intros w1 w2 H1 H2. rewrite Hw, H2 in H1. congruence.
Qed.

Lemma same_minute_same_request_witness :
  afternoon / 60000 = (afternoon + 59999) / 60000
  /\ @computeWindow sampleHost "Asia/Tokyo" afternoon
     = @computeWindow sampleHost "Asia/Tokyo" (afternoon + 59999).
Proof.
  split; [reflexivity|].
  apply (@same_minute_same_request sampleHost tokyoProps afternoon (afternoon + 59999));
    reflexivity.
Defined.

Lemma all_chars_app (p : ascii -> bool) (a b : string) :
  all_chars p (a +:+ b) = all_chars p a && all_chars p b.
Proof.
  induction a as [|c a IH]; simpl; [reflexivity|]. rewrite IH. apply andb_assoc.
Qed.

Lemma all_chars_impl (p q : ascii -> bool) (s : string) :
  (forall c, p c = true -> q c = true) -> all_chars p s = true -> all_chars q s = true.
Proof.
  intros Hpq. induction s as [|c s IH]; simpl; [reflexivity|].
  intros Hs. apply andb_true_iff in Hs as [Hc Hs].
  apply andb_true_iff. split; [apply Hpq, Hc | apply IH, Hs].
Qed.

Lemma percent_byte_safe (c : ascii) : all_chars uriSafe (percent_byte c) = true.
Proof. destruct c as [[] [] [] [] [] [] [] []]; vm_compute; reflexivity. Qed.

Lemma encodeURIComponent_safe (s : string) : all_chars uriSafe (encodeURIComponent s) = true.
Proof.
  induction s as [|c s IH]; simpl; [reflexivity|].
  rewrite all_chars_app, IH, andb_true_r.
  destruct (unreserved c) eqn:Hc; [|apply percent_byte_safe].
  simpl. unfold uriSafe. rewrite Hc. reflexivity.
Qed.

Lemma uriSafe_not_delimiter (c : ascii) : uriSafe c = true -> negb (is_delimiter c) = true.
Proof.
  destruct c as [[] [] [] [] [] [] [] []]; vm_compute; intros Hc;
    first [reflexivity | discriminate].
Qed.

(** X9: the chart reference is the fixed address followed by one query
    value made only of letters, digits, [- _ . ! ~ * ' ( )] and percent
    escapes: whatever the city, the unit or the samples are, the chart
    specification adds no [&], [=], [#], [?], quote, space or line break
    to the URL. *)
Theorem chartUrl_is_one_parameter `{Host} (chartConfig : value) :
  exists query : string,
    chartUrlOf chartConfig = chartUrlPrefix +:+ query
    /\ query = encodeURIComponent (json_text (JSON_stringify chartConfig))
    /\ all_chars uriSafe query = true
    /\ all_chars (fun c => negb (is_delimiter c)) query = true.
Proof.
  eexists. split; [reflexivity|]. split; [reflexivity|].
  split; [apply encodeURIComponent_safe|].
  apply (all_chars_impl uriSafe); [apply uriSafe_not_delimiter|].
  apply encodeURIComponent_safe.
Qed.

Lemma until_T_none (s : string) : all_chars not_T s = true -> until_T s = s.
Proof.
  induction s as [|c s IH]; simpl; [reflexivity|]. unfold not_T at 1.
  intros Hs. apply andb_true_iff in Hs as [Hc Hs]. apply negb_true_iff in Hc.
  rewrite Hc, IH by exact Hs. reflexivity.
Qed.

Lemma after_T_none (s : string) : all_chars not_T s = true -> after_T s = None.
Proof.
  induction s as [|c s IH]; simpl; [reflexivity|]. unfold not_T at 1.
  intros Hs. apply andb_true_iff in Hs as [Hc Hs]. apply negb_true_iff in Hc.
  rewrite Hc. apply IH, Hs.
Qed.

Lemma after_T_first (date rest : string) :
  all_chars not_T date = true -> after_T (date +:+ "T" +:+ rest) = Some rest.
Proof.
  induction date as [|c date IH]; simpl; [reflexivity|]. unfold not_T at 1.
  intros Hs. apply andb_true_iff in Hs as [Hc Hs]. apply negb_true_iff in Hc.
  rewrite Hc. apply IH, Hs.
Qed.

Lemma until_T_first (clock rest : string) :
  all_chars not_T clock = true -> until_T (clock +:+ "T" +:+ rest) = clock.
Proof.
  induction clock as [|c clock IH]; simpl; [reflexivity|]. unfold not_T at 1.
  intros Hs. apply andb_true_iff in Hs as [Hc Hs]. apply negb_true_iff in Hc.
  rewrite Hc, IH by exact Hs. reflexivity.
Qed.

(** X10: the chart label of a timestamp [date T clock] is its clock part;
    anything after a second [T] is dropped, and a timestamp without a [T]
    has no label, which the chart specification carries as [null]. *)
Theorem label_is_time_of_day (date clock : string) :
  all_chars not_T date = true ->
  all_chars not_T clock = true ->
  split_T_1 (date +:+ "T" +:+ clock) = Some clock
  /\ (forall more, split_T_1 (date +:+ "T" +:+ clock +:+ "T" +:+ more) = Some clock)
  /\ split_T_1 date = None
  /\ label_value (split_T_1 date) = VNull.
Proof.
  intros Hdate Hclock. unfold split_T_1. repeat split.
  - rewrite (after_T_first date clock Hdate). simpl. f_equal. apply until_T_none, Hclock.
  - intros more. rewrite (after_T_first date _ Hdate). simpl. f_equal.
    apply until_T_first, Hclock.
  - rewrite (after_T_none date Hdate). reflexivity.
  - rewrite (after_T_none date Hdate). reflexivity.
Qed.

Lemma label_is_time_of_day_witness :
  all_chars not_T "2025-10-30" = true
  /\ all_chars not_T "15:00" = true
  /\ split_T_1 "2025-10-30T15:00" = Some "15:00".
Proof.
  split; [reflexivity|]. split; [reflexivity|].
  apply (label_is_time_of_day "2025-10-30" "15:00"); reflexivity.
Defined.

(* ================================================================== *)
(** * The commands without a fallback *)
(* ================================================================== *)

Lemma settled_failure (parseResponse : Response.t -> completion value)
    (outcome : FetchOutcome) (e : Error) :
  match outcome with
  | Rejected e' => e' = e
  | Responded r => parseResponse r = Throw e
  end ->
  settled parseResponse outcome
  = {| UseFetch.data := None; UseFetch.isLoading := false; UseFetch.error := Some e |}.
Proof.
  unfold settled. destruct outcome as [e'|r]; [intros -> | intros ->]; reflexivity.
Qed.

(** X11: in the Tokyo command every failed fetch (rejected, status not
    ok, body not JSON) ends in the error panel, not loading, whose text
    carries the error message; for a status that is not ok the message
    names the status code. *)
Theorem Tokyo_failure_shows_error_panel `{Host} (outcome : FetchOutcome) :
  fetchFails outcome = true ->
  exists e : Error,
    Tokyo.Command (settled Tokyo.parseResponse outcome)
    = Normal {| Detail.isLoading := false;
                Detail.markdown := Some (Tokyo.errorMarkdown e);
                Detail.actions := [] |}
    /\ (forall e', outcome = Rejected e' -> e = e')
    /\ (forall r, outcome = Responded r -> Response.ok r = false ->
                  e = MkError ("HTTP error! status: "
                               +:+ Number_toString (num_of_Z (Response.status r)))).
Proof.
  intros Hf. destruct outcome as [e|r].
  - exists e. rewrite (settled_failure _ (Rejected e) e eq_refl).
    split; [reflexivity|]. split; [intros e' [= ->]; reflexivity | discriminate].
  - simpl in Hf. destruct (Response.ok r) eqn:Hok.
    + simpl in Hf. apply bool_decide_eq_true in Hf.
      exists (MkError "Unexpected token in JSON").
      rewrite (settled_failure _ (Responded r) (MkError "Unexpected token in JSON")).
      * split; [reflexivity|]. split; [discriminate | intros r' [= <-]; congruence].
      * unfold Tokyo.parseResponse. rewrite Hok, Hf. reflexivity.
    + eexists.
      rewrite (settled_failure _ (Responded r)
                 (MkError ("HTTP error! status: "
                           +:+ Number_toString (num_of_Z (Response.status r))))).
      * split; [reflexivity|]. split; [discriminate | intros r' [= <-] _; reflexivity].
      * unfold Tokyo.parseResponse. rewrite Hok. reflexivity.
Qed.

Lemma Tokyo_failure_shows_error_panel_witness :
  fetchFails (Responded unavailable) = true
  /\ @Tokyo.Command sampleHost (settled (@Tokyo.parseResponse sampleHost)
                                  (Responded unavailable))
     = Normal {| Detail.isLoading := false;
                 Detail.markdown :=
                   Some (@Tokyo.errorMarkdown sampleHost (MkError "HTTP error! status: 503"));
                 Detail.actions := [] |}.
Proof.
  split; [reflexivity|].
  destruct (@Tokyo_failure_shows_error_panel sampleHost (Responded unavailable) eq_refl)
    as (e & Hcommand & _ & Hstatus).
  rewrite Hcommand, (Hstatus unavailable eq_refl eq_refl). reflexivity.
Defined.

(** X12: the Tokyo command does not guard the shape of an accepted body:
    when the decoded value is truthy and has no [current] (or a null
    one), the render throws on [data.current.time]; when the decoded
    value is falsy the panel stays on the loading indicator. *)
Theorem Tokyo_body_without_current `{Host} (r : Response.t) (text : json) :
  Response.ok r = true ->
  Response.body r = Some text ->
  prop "current" (JSON_parse text) = None \/ prop "current" (JSON_parse text) = Some VNull ->
  (truthy (JSON_parse text) = true ->
   exists e, Tokyo.Command (settled Tokyo.parseResponse (Responded r)) = Throw e)
  /\ (truthy (JSON_parse text) = false ->
      Tokyo.Command (settled Tokyo.parseResponse (Responded r)) = Normal loadingDetail).
Proof.
  intros Hok Hbody Hcurrent.
  assert (Hs : settled Tokyo.parseResponse (Responded r)
               = {| UseFetch.data := Some (JSON_parse text); UseFetch.isLoading := false;
                    UseFetch.error := None |}).
  { unfold settled, Tokyo.parseResponse. rewrite Hok, Hbody. reflexivity. }
  rewrite Hs. unfold Tokyo.Command. cbn [UseFetch.error UseFetch.data]. split.
  - intros ->. simpl. destruct Hcurrent as [-> | ->]; eauto.
  - intros ->. reflexivity.
Qed.

Lemma Tokyo_body_without_current_witness :
  prop "current" (JSON_parse (forecastText mildTemps)) = None
  /\ exists e,
       @Tokyo.Command sampleHost
         (settled (@Tokyo.parseResponse sampleHost)
            (Responded (okResponse (forecastText mildTemps))))
       = Throw e.
Proof.
  split; [reflexivity|].
  apply (@Tokyo_body_without_current sampleHost (okResponse (forecastText mildTemps))
           (forecastText mildTemps) eq_refl eq_refl (or_introl eq_refl)).
  reflexivity.
Defined.



(* ================================================================== *)
(** * From the location lookup to the report *)
(* ================================================================== *)

Lemma LocationResponse_decode_success (v : value) (l : LocationResponse.t) :
  LocationResponse.decode v = Some l ->
  truthy v = true /\ prop "success" v = Some (VBool (LocationResponse.success l)).
Proof.
  unfold LocationResponse.decode. intros Hd.
  destruct v as [| | | | |props]; try discriminate. split; [reflexivity|].
  simpl in *.
  destruct (get_prop "success" props) as [[]|]; simplify_option_eq; reflexivity.
Qed.

Lemma Command_display (location : UseFetch.t) (v : value) (l : LocationResponse.t) :
  UseFetch.isLoading location = false -> UseFetch.error location = None ->
  UseFetch.data location = Some v -> LocationResponse.decode v = Some l ->
  LocationResponse.success l = true ->
  Cached.Command location = Normal (Display (propsOf l))
  /\ Plain.Command location = Normal (Display (propsOf l)).
Proof.
  intros Hl He Hd Hv Hs. destruct (LocationResponse_decode_success v l Hv) as [Ht Hp].
  unfold Cached.Command, Plain.Command. rewrite Hl, He, Hd. simpl.
  rewrite Ht, Hp, Hv. simpl. rewrite Hs. split; reflexivity.
Qed.



(** X15: when the lookup succeeds, the zone is known and the forecast
    fetch returns a body that fits the interface, the run ends in the
    report for the lookup's place, with no banner before the title, and
    the forecast has been written to the cache slot by the run's only
    [LocalStorage] call. *)
Theorem fresh_report_end_to_end `{Host} (r1 r2 : Response.t) (place text : json)
    (l : LocationResponse.t) (data : WeatherResponse.t) (now : Z) (net : Network)
    (stored : gmap string json) (win : Window) :
  Response.ok r1 = true -> Response.body r1 = Some place ->
  LocationResponse.decode (JSON_parse place) = Some l ->
  LocationResponse.success l = true ->
  computeWindow (LocationResponse.timezone_id l) now = Normal win ->
  net (apiUrl (propsOf l) win) = Responded r2 ->
  Response.ok r2 = true -> Response.body r2 = Some text ->
  WeatherResponse.decode (JSON_parse text) = Some data ->
  exists date chartUrl,
    formattedDate (LocationResponse.timezone_id l) now = Normal date
    /\ chartUrl = chartUrlOf (Cached.chartConfig (propsOf l) data date)
    /\ Cached.runCommand (settled defaultParseResponse (Responded r1)) now net stored
       = (Normal {| Detail.isLoading := false;
                    Detail.markdown := Some (reportBody (propsOf l) win data chartUrl);
                    Detail.actions := chartActions chartUrl |},
          <[Cached.cacheKey := JSON_stringify (JSON_parse text)]> stored,
          [Cached.SetItem Cached.cacheKey (JSON_stringify (JSON_parse text))]).
Proof.
  intros Hok1 Hbody1 Hl Hsuccess Hwin Hnet Hok2 Hbody2 Hdata.
  assert (Hlocation : settled defaultParseResponse (Responded r1)
                      = {| UseFetch.data := Some (JSON_parse place);
                           UseFetch.isLoading := false; UseFetch.error := None |}).
  { unfold settled, defaultParseResponse. rewrite Hok1, Hbody1. reflexivity. }
  rewrite Hlocation.
  destruct (Command_display
              {| UseFetch.data := Some (JSON_parse place); UseFetch.isLoading := false;
                 UseFetch.error := None |}
              (JSON_parse place) l eq_refl eq_refl eq_refl Hl Hsuccess) as [Hcommand _].
  unfold Cached.runCommand. rewrite Hcommand.
  unfold Cached.runWeatherDisplay. change (Props.timezoneId (propsOf l))
    with (LocationResponse.timezone_id l). rewrite Hwin.
  rewrite (fetchData_success net _ _ r2 text Hnet Hok2 Hbody2).
  cbn [Cached.state Cached.storage Cached.trace app].
  destruct (WeatherDisplay_report (propsOf l) now
              {| Cached.State.weather := JSON_parse text; Cached.State.isStale := false;
                 Cached.State.isLoading := false; Cached.State.error := None |}
              win data Hwin Hdata) as (date & Hdate & Hrender).
  exists date, (chartUrlOf (Cached.chartConfig (propsOf l) data date)).
  split; [exact Hdate|]. split; [reflexivity|]. rewrite Hrender. reflexivity.
Qed.

Lemma fresh_report_end_to_end_witness :
  LocationResponse.decode (JSON_parse locationText)
  = Some {| LocationResponse.success := true;
            LocationResponse.latitude := Fin (357 # 10);
            LocationResponse.longitude := Fin (1397 # 10);
            LocationResponse.city := "Tokyo"; LocationResponse.country := "Japan";
            LocationResponse.timezone_id := "Asia/Tokyo" |}
  /\ exists d,
       (@Cached.runCommand sampleHost
          (settled defaultParseResponse (Responded (okResponse locationText))) afternoon
          (always (Responded (okResponse (forecastText mildTemps)))) ∅).1.1 = Normal d
       /\ Detail.isLoading d = false.
Proof.
  split; [reflexivity|].
  destruct (@fresh_report_end_to_end sampleHost (okResponse locationText)
              (okResponse (forecastText mildTemps)) locationText (forecastText mildTemps)
              {| LocationResponse.success := true;
                 LocationResponse.latitude := Fin (357 # 10);
                 LocationResponse.longitude := Fin (1397 # 10);
                 LocationResponse.city := "Tokyo"; LocationResponse.country := "Japan";
                 LocationResponse.timezone_id := "Asia/Tokyo" |}
              (forecastData mildTemps) afternoon
              (always (Responded (okResponse (forecastText mildTemps)))) ∅ sampleWindow)
    as (date & chartUrl & _ & _ & Hrun); try reflexivity.
  eexists. rewrite Hrun. split; reflexivity.
Defined.

(* ================================================================== *)
(** * The table and the panels that keep loading *)
(* ================================================================== *)

(** X16: the table follows the time array alone: it has one row per
    timestamp, as many as the count line of the report says, row [i]
    pairs timestamp [i] with temperature [i], and where the temperature
    array is too short the cell reads [undefined]. *)
Theorem table_follows_time_array `{Host} (data : WeatherResponse.t) :
  let times := WeatherResponse.time (WeatherResponse.hourly data) in
  let temps := WeatherResponse.temperature_2m (WeatherResponse.hourly data) in
  let unit := WeatherResponse.units_temperature_2m (WeatherResponse.hourly_units data) in
  exists rows : list string,
    timeSeriesData data = String.concat LF rows
    /\ length rows = length times
    /\ (forall i t n, times !! i = Some t -> temps !! i = Some n ->
          rows !! i = Some ("| " +:+ t +:+ " | " +:+ Number_toString n +:+ unit +:+ " |"))
    /\ (forall i t, times !! i = Some t -> (length temps <= i)%nat ->
          rows !! i = Some ("| " +:+ t +:+ " | " +:+ "undefined" +:+ unit +:+ " |"))
    /\ (forall i, (length times <= i)%nat -> rows !! i = None).
Proof.
  intros times temps unit.
  exists (imap (tableRow data) times). split; [reflexivity|].
  split; [apply length_imap|]. split; [|split].
  - intros i t n Ht Hn. rewrite list_lookup_imap, Ht. simpl.
    unfold tableRow. fold temps. rewrite Hn. reflexivity.
  - intros i t Ht Hshort. rewrite list_lookup_imap, Ht. simpl.
    unfold tableRow. fold temps. rewrite (lookup_ge_None_2 temps i Hshort). reflexivity.
  - intros i Hlong. rewrite list_lookup_imap, (lookup_ge_None_2 times i Hlong). reflexivity.
Qed.

(** X17: two ways a settled run keeps the loading indicator for good:
    the fetch failed and the cache slot holds a text that parses to a
    truthy value without a truthy [hourly] (the run then only read the
    slot); or the fetch succeeded with a body that parses to a falsy
    value such as [null]. *)
Theorem settled_run_stays_loading `{Host} (props : Props.t) (now : Z) (net : Network)
    (stored : gmap string json) (win : Window) :
  computeWindow (Props.timezoneId props) now = Normal win ->
  (forall text,
     fetchFails (net (apiUrl props win)) = true ->
     stored !! Cached.cacheKey = Some text ->
     truthy (JSON_parse text) = true ->
     truthy_opt (prop "hourly" (JSON_parse text)) = false ->
     Cached.runWeatherDisplay props now net stored
     = (Normal loadingDetail, stored, [Cached.GetItem Cached.cacheKey]))
  /\ (forall r text,
        net (apiUrl props win) = Responded r -> Response.ok r = true ->
        Response.body r = Some text ->
        truthy (JSON_parse text) = false ->
        (Cached.runWeatherDisplay props now net stored).1.1 = Normal loadingDetail).
Proof.
  intros Hwin. unfold Cached.runWeatherDisplay. rewrite Hwin. split.
  - intros text Hf Hslot Ht Hh.
    destruct (fetchData_failure_cached net (apiUrl props win)
                {| Cached.state := Cached.initialState; Cached.storage := stored;
                   Cached.trace := [] |} text Hf Hslot) as [e He].
    rewrite He. cbn [Cached.state Cached.storage Cached.trace app].
    unfold Cached.WeatherDisplay. rewrite Hwin. simpl. rewrite Ht, Hh. reflexivity.
  - intros r text Hnet Hok Hbody Ht.
    rewrite (fetchData_success net (apiUrl props win) _ r text Hnet Hok Hbody).
    cbn [fst Cached.state]. unfold Cached.WeatherDisplay. rewrite Hwin. simpl.
    rewrite Ht. reflexivity.
Qed.

Lemma settled_run_stays_loading_witness :
  let stored : gmap string json := {[ Cached.cacheKey := currentText ]} in
  @computeWindow sampleHost "Asia/Tokyo" afternoon = Normal sampleWindow
  /\ @Cached.runWeatherDisplay sampleHost tokyoProps afternoon
       (always (Responded unavailable)) stored
     = (Normal loadingDetail, stored, [Cached.GetItem Cached.cacheKey]).
Proof.
  intros stored. split; [reflexivity|].
  destruct (@settled_run_stays_loading sampleHost tokyoProps afternoon
              (always (Responded unavailable)) stored sampleWindow eq_refl) as [Hcached _].
  apply (Hcached currentText); reflexivity.
Defined.
